(** * Air-quality prediction service

    A shallow embedding of [api_server.py] (the FastAPI prediction service)
    and of the history buffer kept by [dashboard.py], with the properties of
    the prediction pipeline proved about them.

    Conventions of the embedding.
    - Python numbers (the ints and floats of a decoded JSON body, the query
      parameters, the model's output) are rationals in canonical form
      ([Qc]): every finite float is one, and the comparisons of
      [get_aqi_status] against the integer thresholds are exact on them.
      [0] and [0.0] are the same value, as they are for Python's [==].
      Where the code computes with floats ([round] of the model's output)
      every operation is rounded to the nearest binary64, ties to even.
      NaN, the infinities and overflow are outside the embedding.
    - A [try ... except Exception] block is a computation in an error monad
      followed by a handler; [print] appends to the standard output held in
      the server state; the module-level [model] is a field of that state.
    - What [requests.get] answers is an input of the embedding. *)

From Stdlib Require Import String Ascii List Bool ZArith QArith Qcanon Qround.
From Stdlib Require Import Qpower Qabs Lia Lqa.
Import ListNotations.

Set Implicit Arguments.
#[local] Set Warnings "-register-all".

#[local] Open Scope string_scope.

(* ===================================================================== *)
(** ** Error and state monads *)

Module Monads.

(** A computation that either raises [E] or returns [A]. *)
Definition Except (E A : Type) : Type := (E + A)%type.

Definition ok {E A} (a : A) : Except E A := inr a.
Definition raise {E A} (e : E) : Except E A := inl e.

Definition ebind {E A B} (c : Except E A) (k : A -> Except E B)
  : Except E B :=
  match c with
  | inl e => inl e
  | inr a => k a
  end.

(** A computation over a mutable state [S]. *)
Definition State (S A : Type) : Type := S -> A * S.

Definition sret {S A} (a : A) : State S A := fun s => (a, s).

Definition sbind {S A B} (c : State S A) (k : A -> State S B)
  : State S B :=
  fun s => let (a, s') := c s in k a s'.

Definition gets {S A} (f : S -> A) : State S A := fun s => (f s, s).
Definition modify {S} (f : S -> S) : State S unit := fun s => (tt, f s).

Declare Scope except_scope.
Declare Scope state_scope.
Delimit Scope except_scope with except.
Delimit Scope state_scope with state.

Notation "x <- c ;; k" := (ebind c (fun x => k))
  (at level 61, c at next level, right associativity) : except_scope.
Notation "x <~ c ;; k" := (sbind c (fun x => k))
  (at level 61, c at next level, right associativity) : state_scope.
Notation "c ;;; k" := (sbind c (fun _ => k))
  (at level 61, right associativity) : state_scope.

End Monads.
Import Monads.

(* ===================================================================== *)
(** ** Python values *)

Module Py.

(** The values a decoded JSON document is made of ([json.loads]). *)
Inductive pyval : Type :=
| PyNone
| PyBool (b : bool)
| PyNum (q : Qc)
| PyStr (s : string)
| PyList (items : list pyval)
| PyDict (entries : list (string * pyval)).

(** A number written as a literal of the source. *)
Definition num (q : Q) : pyval := PyNum (Q2Qc q).

(** Exceptions raised while fetching and decoding the provider's answer. *)
Inductive exn : Type :=
| Timeout
| ConnectionError
| HTTPError (status_code : Z)
| JSONDecodeError
| KeyError (key : pyval)
| TypeError
| IndexError.

(** Truth-value testing, as done by [x if c else y]. *)
Definition truthy (v : pyval) : bool :=
  match v with
  | PyNone => false
  | PyBool b => b
  | PyNum q => negb (Qeq_bool q 0)
  | PyStr s => negb (String.eqb s "")
  | PyList items => match items with [] => false | _ => true end
  | PyDict entries => match entries with [] => false | _ => true end
  end.

(** [json.loads] keeps the last of several bindings of one key. *)
Fixpoint dict_get (key : string) (entries : list (string * pyval))
  : option pyval :=
  match entries with
  | [] => None
  | (k, v) :: rest =>
      match dict_get key rest with
      | Some v' => Some v'
      | None => if String.eqb key k then Some v else None
      end
  end.

(** [v[key]] for a string key. *)
Definition subscript_str (v : pyval) (key : string) : Except exn pyval :=
  match v with
  | PyDict entries =>
      match dict_get key entries with
      | Some x => ok x
      | None => raise (KeyError (PyStr key))
      end
  | _ => raise TypeError
  end.

Definition is_continuation_byte (a : ascii) : bool :=
  let n := N_of_ascii a in (128 <=? n)%N && (n <? 192)%N.

(** The bytes of the last code point of a reversed UTF-8 string. *)
Fixpoint last_code_point_rev (rev_bytes : list ascii) : list ascii :=
  match rev_bytes with
  | [] => []
  | a :: rest =>
      if is_continuation_byte a then a :: last_code_point_rev rest
      else [a]
  end.

Definition last_char (s : string) : string :=
  string_of_list_ascii
    (rev (last_code_point_rev (rev (list_ascii_of_string s)))).

(** [v[-1]]: the last item of a list, the last character of a string;
    a dict has no integer key after [json.loads]. *)
Definition subscript_last (v : pyval) : Except exn pyval :=
  match v with
  | PyList items =>
      match rev items with
      | x :: _ => ok x
      | [] => raise IndexError
      end
  | PyStr s =>
      if String.eqb s "" then raise IndexError else ok (PyStr (last_char s))
  | PyDict _ => raise (KeyError (num (-1)))
  | PyNone | PyBool _ | PyNum _ => raise TypeError
  end.

(** The whole number nearest to [x], the even one of two that are equally
    near: C's [rint], and the rounding of a mantissa. *)
Definition round_half_even (x : Q) : Z :=
  let f := Qfloor x in
  match Qcompare (x - inject_Z f) (1 # 2) with
  | Lt => f
  | Gt => (f + 1)%Z
  | Eq => if Z.even f then f else (f + 1)%Z
  end.

(** The [l] with [2^l <= q < 2^(l+1)], for a positive [q]. *)
Definition floor_log2 (q : Q) : Z :=
  let l := (Z.log2 (Qnum q) - Z.log2 (Z.pos (Qden q)))%Z in
  if Qle_bool (2 ^ l) q then l else (l - 1)%Z.

(** The exponent of the last place of a binary64 near [q]: 53 significant
    bits, and nothing finer than the subnormal step [2^-1074]. *)
Definition ulp_exponent (q : Q) : Z :=
  Z.max (floor_log2 (Qabs q) - 52) (-1074).

(** The binary64 (IEEE 754 double) nearest to [q], ties to even: what a
    floating-point operation returns for the exact result [q]. *)
Definition binary64 (q : Q) : Q :=
  if Qeq_bool q 0 then 0
  else inject_Z (round_half_even (q / 2 ^ ulp_exponent q))
       * 2 ^ ulp_exponent q.

(** [round(x, ndigits)] for a [numpy.float64] [x] and [ndigits >= 0], as
    numpy computes it: [rint(x * 10**ndigits) / 10**ndigits], the product
    and the quotient each rounded to binary64. *)
Definition round (x : Qc) (ndigits : nat) : Qc :=
  let scale := inject_Z (10 ^ Z.of_nat ndigits) in
  Q2Qc (binary64
          (inject_Z (round_half_even (binary64 (x * scale))) / scale)).

(** [needle in hay] for two strings: [needle] starts at some position of
    [hay]. *)
Fixpoint str_contains (needle hay : string) : bool :=
  String.prefix needle hay ||
  match hay with
  | EmptyString => false
  | String _ rest => str_contains needle rest
  end.

End Py.
Import Py.

(* ===================================================================== *)
(** ** api_server.py *)

Module ApiServer.

#[local] Open Scope Q_scope.

(** The object [joblib.load] returned.  [truth_value] is what [bool(model)]
    answers (scikit-learn ensembles and pipelines define [__len__], so it is
    data of the object); [predict_fn rows] is [model.predict(np.array(rows))]:
    the predictions, or the [str()] of the exception raised. *)
Record Model : Type := {
  truth_value : bool;
  predict_fn : list (list pyval) -> Except string (list Qc)
}.

(** A pollutant reading: the dict with the seven keys below. *)
Record Reading : Type := {
  pm2_5 : pyval;
  pm10 : pyval;
  no2 : pyval;
  so2 : pyval;
  co : pyval;
  o3 : pyval;
  nh3 : pyval
}.

(** Lines written by [print]. *)
Inductive LogLine : Type :=
| ModelLoaded
| ModelLoadError (e : string)
| FetchedLiveData (latest : Reading)
| FetchError (e : exn).

(** The module-level state of the running process. *)
Record Server : Type := {
  model : option Model;
  stdout : list LogLine
}.

Definition logged (s : Server) (line : LogLine) : Server :=
  {| model := model s; stdout := stdout s ++ [line] |}.

Definition print (line : LogLine) : State Server unit :=
  modify (fun s => logged s line).

(** Lines 20-28: the model is loaded once, at import. *)
Definition startup (loaded : Except string Model) : Server :=
  match loaded with
  | inr m => {| model := Some m; stdout := [ModelLoaded] |}
  | inl e => {| model := None; stdout := [ModelLoadError e] |}
  end.

(** What [requests.get(url, timeout=10)] did: it raised, or it returned a
    response with a status code and a body that [response.json()] decodes
    ([None] when it does not). *)
Inductive GetResult : Type :=
| GetRaised (e : exn)
| GetResponse (status_code : Z) (json_body : option pyval).

Record Response : Type := {
  resp_status_code : Z;
  resp_json : option pyval
}.

Definition requests_get (net : GetResult) : Except exn Response :=
  match net with
  | GetRaised e => raise e
  | GetResponse c b => ok {| resp_status_code := c; resp_json := b |}
  end.

(** [Response.raise_for_status] of the requests library: client (4xx) and
    server (5xx) errors raise, every other status passes. *)
Definition raise_for_status (response : Response) : Except exn unit :=
  let c := resp_status_code response in
  if ((400 <=? c) && (c <? 600))%Z then raise (HTTPError c) else ok tt.

Definition response_json (response : Response) : Except exn pyval :=
  match resp_json response with
  | Some data => ok data
  | None => raise JSONDecodeError
  end.

(** [hourly[key][-1] if hourly[key] else 0] *)
Definition latest_of (hourly : pyval) (key : string) : Except exn pyval :=
  (cond <- subscript_str hourly key ;;
   if truthy cond
   then (series <- subscript_str hourly key ;; subscript_last series)
   else ok (num 0))%except.

(** Lines 33-52: the body of the [try]. *)
Definition fetch_live_data_try (net : GetResult) : Except exn Reading :=
  (response <- requests_get net ;;
   _ <- raise_for_status response ;;
   data <- response_json response ;;
   hourly <- subscript_str data "hourly" ;;
   v_pm2_5 <- latest_of hourly "pm2_5" ;;
   v_pm10 <- latest_of hourly "pm10" ;;
   v_no2 <- latest_of hourly "nitrogen_dioxide" ;;
   v_so2 <- latest_of hourly "sulphur_dioxide" ;;
   v_co <- latest_of hourly "carbon_monoxide" ;;
   v_o3 <- latest_of hourly "ozone" ;;
   ok {| pm2_5 := v_pm2_5; pm10 := v_pm10; no2 := v_no2; so2 := v_so2;
         co := v_co; o3 := v_o3; nh3 := num 0.0 |})%except.

(** Lines 57-60: the sample data returned by the handler. *)
Definition fallback_reading : Reading :=
  {| pm2_5 := num 25.0; pm10 := num 45.0; no2 := num 12.0;
     so2 := num 5.0; co := num 0.5; o3 := num 45.0;
     nh3 := num 0.0 |}.

(** Lines 30-60.  [lat] and [lon] only choose the URL; [net] is what the
    provider did with the one request the call makes.  The result is a
    reading in every case: no exception leaves the function. *)
Definition fetch_live_data (net : GetResult) : State Server Reading :=
  match fetch_live_data_try net with
  | inr latest => (print (FetchedLiveData latest) ;;; sret latest)%state
  | inl e => (print (FetchError e) ;;; sret fallback_reading)%state
  end.

Definition get_aqi_status (aqi : Qc) : string :=
  if Qle_bool aqi 50 then "Good 😊"
  else if Qle_bool aqi 100 then "Moderate 😐"
  else if Qle_bool aqi 150 then "Unhealthy for Sensitive Groups 😷"
  else if Qle_bool aqi 200 then "Unhealthy 😞"
  else if Qle_bool aqi 300 then "Very Unhealthy 😨"
  else "Hazardous ☠️".

Record HealthResponse : Type := {
  health_status : string;
  model_loaded : bool
}.

(** [model] in a boolean context: [None] is false, an object answers its
    [truth_value]. *)
Definition model_truthy (m : option Model) : bool :=
  match m with
  | Some obj => truth_value obj
  | None => false
  end.

Definition is_not_None (m : option Model) : bool :=
  match m with
  | Some _ => true
  | None => false
  end.

Definition health_check : State Server HealthResponse :=
  (m <~ gets model ;;
   sret {| health_status :=
             if model_truthy m then "healthy" else "model_not_loaded";
           model_loaded := is_not_None m |})%state.

Record HTTPException : Type := {
  exc_status_code : Z;
  detail : string
}.

(** [model.predict(X)[0]] *)
Definition predict_first (m : Model) (X : list (list pyval))
  : Except string Qc :=
  (predictions <- predict_fn m X ;;
   match predictions with
   | y :: _ => ok y
   | [] => raise "index 0 is out of bounds for axis 0 with size 0"
   end)%except.

(** Lines 107-116: the row built by [predict]. *)
Definition live_features (data : Reading) : list pyval :=
  [ pm2_5 data; pm10 data; num 0.0; no2 data; nh3 data; co data;
    so2 data; o3 data ].

Record LivePrediction : Type := {
  live_AQI_Predicted : Qc;
  live_status : string;
  pollutants : Reading;
  location : string;
  timestamp : string
}.

(** [except Exception as e: raise HTTPException(500, f"Prediction error: ...")] *)
Definition prediction_error {A} (c : Except string A)
  : Except HTTPException A :=
  match c with
  | inr a => ok a
  | inl msg =>
      raise {| exc_status_code := 500;
               detail := "Prediction error: " ++ msg |}
  end.

Definition model_not_loaded {A} : Except HTTPException A :=
  raise {| exc_status_code := 500; detail := "Model not loaded" |}.

Definition predict (net : GetResult)
  : State Server (Except HTTPException LivePrediction) :=
  (m <~ gets model ;;
   match m with
   | None => sret model_not_loaded
   | Some mdl =>
       data <~ fetch_live_data net ;;
       sret (prediction_error
               (prediction <- predict_first mdl [live_features data] ;;
                ok {| live_AQI_Predicted := round prediction 2;
                      live_status := get_aqi_status prediction;
                      pollutants := data;
                      location := "Delhi, India";
                      timestamp := "Live data" |})%except)
   end)%state.

(** The query parameters of [/predict/custom], already validated as floats
    ([nh3] is [0.0] when the query leaves it out). *)
Record CustomParams : Type := {
  q_pm25 : Qc;
  q_pm10 : Qc;
  q_no2 : Qc;
  q_so2 : Qc;
  q_co : Qc;
  q_o3 : Qc;
  q_nh3 : Qc
}.

(** Lines 141-143: the row built by [predict_custom]. *)
Definition custom_features (p : CustomParams) : list pyval :=
  [ PyNum (q_pm25 p); num 0.0; PyNum (q_no2 p); PyNum (q_nh3 p);
    PyNum (q_co p); PyNum (q_so2 p); PyNum (q_o3 p); PyNum (q_pm10 p) ].

(** The [input_parameters] dict, keys "PM2.5", "PM10", "NO2", "SO2", "CO",
    "O3", "NH3" in this order. *)
Record CustomPrediction : Type := {
  custom_AQI_Predicted : Qc;
  custom_status : string;
  input_parameters : list (string * Qc)
}.

Definition predict_custom (p : CustomParams)
  : State Server (Except HTTPException CustomPrediction) :=
  (m <~ gets model ;;
   match m with
   | None => sret model_not_loaded
   | Some mdl =>
       sret (prediction_error
               (prediction <- predict_first mdl [custom_features p] ;;
                ok {| custom_AQI_Predicted := round prediction 2;
                      custom_status := get_aqi_status prediction;
                      input_parameters :=
                        [ ("PM2.5", q_pm25 p); ("PM10", q_pm10 p);
                          ("NO2", q_no2 p); ("SO2", q_so2 p);
                          ("CO", q_co p); ("O3", q_o3 p);
                          ("NH3", q_nh3 p) ] |})%except)
   end)%state.

(** Lines 77-86: the discovery payload of [/]. *)
Definition home : pyval :=
  PyDict
    [ ("message", PyStr "Air Quality Prediction API is Running!");
      ("endpoints",
        PyDict
          [ ("health", PyStr "/health");
            ("predict", PyStr "/predict");
            ("predict_custom",
              PyStr "/predict/custom?pm25=10&pm10=20&no2=15&so2=5&co=0.5&o3=40&nh3=0")
          ]) ].

(** The four [@app.get] routes, with what the request brings along: the
    provider's behaviour during a [/predict], the validated query of a
    [/predict/custom]. *)
Inductive Request : Type :=
| GetHome
| GetHealth
| GetPredict (net : GetResult)
| GetPredictCustom (p : CustomParams).

Inductive Reply : Type :=
| HomeReply (payload : pyval)
| HealthReply (health : HealthResponse)
| PredictReply (outcome : Except HTTPException LivePrediction)
| PredictCustomReply (outcome : Except HTTPException CustomPrediction).

Definition handle (req : Request) : State Server Reply :=
  match req with
  | GetHome => sret (HomeReply home)
  | GetHealth => (h <~ health_check ;; sret (HealthReply h))%state
  | GetPredict net => (r <~ predict net ;; sret (PredictReply r))%state
  | GetPredictCustom p =>
      (r <~ predict_custom p ;; sret (PredictCustomReply r))%state
  end.

(** The requests of a process lifetime, served one after the other. *)
Fixpoint serve (reqs : list Request) : State Server (list Reply) :=
  match reqs with
  | [] => sret []
  | req :: rest =>
      (reply <~ handle req ;;
       replies <~ serve rest ;;
       sret (reply :: replies))%state
  end.

(** The JSON object FastAPI sends for the dict returned by [predict]. *)
Definition reading_json (r : Reading) : pyval :=
  PyDict
    [ ("pm2_5", pm2_5 r); ("pm10", pm10 r); ("no2", no2 r); ("so2", so2 r);
      ("co", co r); ("o3", o3 r); ("nh3", nh3 r) ].

Definition live_prediction_json (a : LivePrediction) : pyval :=
  PyDict
    [ ("AQI_Predicted", PyNum (live_AQI_Predicted a));
      ("status", PyStr (live_status a));
      ("pollutants", reading_json (pollutants a));
      ("location", PyStr (location a));
      ("timestamp", PyStr (timestamp a)) ].

(** What a client of [/predict] receives: status 200 with the JSON of the
    returned dict, or the status of the [HTTPException] with its detail. *)
Definition http_response (outcome : Except HTTPException LivePrediction)
  : GetResult :=
  match outcome with
  | inr a => GetResponse 200 (Some (live_prediction_json a))
  | inl e =>
      GetResponse (exc_status_code e)
        (Some (PyDict [("detail", PyStr (detail e))]))
  end.

End ApiServer.

(* ===================================================================== *)
(** ** dashboard.py: the AQI history of a session *)

Module Dashboard.

Import ApiServer.
#[local] Open Scope list_scope.

Record HistoryEntry : Type := {
  time : string;
  aqi : Qc
}.

(** [list.pop(0)] on a list that is not empty. *)
Definition pop0 {A} (l : list A) : list A := tl l.

(** Lines 147-155, run once per refresh: append the reading, then keep only
    the last 20. *)
Definition update_history (aqi_history : list HistoryEntry)
    (reading : HistoryEntry) : list HistoryEntry :=
  let appended := aqi_history ++ [reading] in
  if (20 <? length appended)%nat then pop0 appended else appended.

(** The session state after the refreshes that produced [readings], one
    after the other. *)
Definition refreshes (aqi_history : list HistoryEntry)
    (readings : list HistoryEntry) : list HistoryEntry :=
  fold_left update_history readings aqi_history.

(** Lines 51-60. *)
Definition sample_data : pyval :=
  PyDict
    [ ("AQI_Predicted", num 45.5);
      ("status", PyStr "Good 😊");
      ("pollutants",
        PyDict
          [ ("pm2_5", num 25.0); ("pm10", num 45.0); ("no2", num 12.0);
            ("so2", num 5.0); ("co", num 0.5); ("o3", num 45.0);
            ("nh3", num 0.0) ]);
      ("location", PyStr "Delhi, India");
      ("timestamp", PyStr "Sample Data") ].

(** What [st.error] shows. *)
Inductive UiMessage : Type :=
| ApiError (status_code : Z)
| ConnectionErrorMessage (e : exn).

Definition st_error (m : UiMessage) : State (list UiMessage) unit :=
  modify (fun shown => shown ++ [m]).

(** Lines 68-82.  [use_sample_data] is the sidebar checkbox, [net] what
    the request to [api_url/predict] did. *)
Definition fetch_data (use_sample_data : bool) (net : GetResult)
  : State (list UiMessage) pyval :=
  if use_sample_data then sret sample_data
  else
    let on_exception e :=
      (st_error (ConnectionErrorMessage e) ;;; sret sample_data)%state in
    match requests_get net with
    | inl e => on_exception e
    | inr response =>
        if (resp_status_code response =? 200)%Z
        then match response_json response with
             | inr data => sret data
             | inl e => on_exception e
             end
        else (st_error (ApiError (resp_status_code response)) ;;;
              sret sample_data)%state
    end.

(** Lines 84-95. *)
Definition get_status_color (status : string) : string :=
  if str_contains "Good" status then "green"
  else if str_contains "Moderate" status then "orange"
  else if str_contains "Unhealthy" status then "red"
  else if str_contains "Very Unhealthy" status then "purple"
  else "maroon".

End Dashboard.

(* ===================================================================== *)
(** ** The contract, in the words of the specification *)

Module Contract.

Import ApiServer.

(** The six ordered severity bands. *)
Inductive AqiStatus : Type :=
| Good
| Moderate
| UnhealthyForSensitive
| Unhealthy
| VeryUnhealthy
| Hazardous.

Definition all_statuses : list AqiStatus :=
  [Good; Moderate; UnhealthyForSensitive; Unhealthy; VeryUnhealthy;
   Hazardous].

Definition label (b : AqiStatus) : string :=
  match b with
  | Good => "Good 😊"
  | Moderate => "Moderate 😐"
  | UnhealthyForSensitive => "Unhealthy for Sensitive Groups 😷"
  | Unhealthy => "Unhealthy 😞"
  | VeryUnhealthy => "Very Unhealthy 😨"
  | Hazardous => "Hazardous ☠️"
  end.

(** The inclusive upper threshold of a band; [Hazardous] has none. *)
Definition upper_threshold (b : AqiStatus) : option Q :=
  match b with
  | Good => Some 50%Q
  | Moderate => Some 100%Q
  | UnhealthyForSensitive => Some 150%Q
  | Unhealthy => Some 200%Q
  | VeryUnhealthy => Some 300%Q
  | Hazardous => None
  end.

(** The band just below; [Good] has none. *)
Definition band_below (b : AqiStatus) : option AqiStatus :=
  match b with
  | Good => None
  | Moderate => Some Good
  | UnhealthyForSensitive => Some Moderate
  | Unhealthy => Some UnhealthyForSensitive
  | VeryUnhealthy => Some Unhealthy
  | Hazardous => Some VeryUnhealthy
  end.

Definition above (score : Q) (threshold : option Q) : Prop :=
  match threshold with
  | Some t => (t < score)%Q
  | None => True
  end.

Definition within (score : Q) (threshold : option Q) : Prop :=
  match threshold with
  | Some t => (score <= t)%Q
  | None => True
  end.

(** A score belongs to the band whose upper threshold it does not exceed
    while exceeding the threshold of the band below. *)
Definition in_band (score : Qc) (b : AqiStatus) : Prop :=
  match band_below b with
  | Some lower => above score (upper_threshold lower)
  | None => True
  end /\ within score (upper_threshold b).

(** The seven named values of a custom request, as a reading. *)
Definition reading_of (p : CustomParams) : Reading :=
  {| pm2_5 := PyNum (q_pm25 p); pm10 := PyNum (q_pm10 p);
     no2 := PyNum (q_no2 p); so2 := PyNum (q_so2 p); co := PyNum (q_co p);
     o3 := PyNum (q_o3 p); nh3 := PyNum (q_nh3 p) |}.

(** The hourly series read from the provider's answer. *)
Definition series_keys : list string :=
  ["pm2_5"; "pm10"; "nitrogen_dioxide"; "sulphur_dioxide";
   "carbon_monoxide"; "ozone"].

(** The failures of the fetch as the specification lists them: a timeout,
    a status that is not 2xx, a body that is missing or does not decode. *)
Inductive stated_failure : GetResult -> Prop :=
| stated_timeout :
    stated_failure (GetRaised Timeout)
| stated_non_2xx c body :
    ~ (200 <= c < 300)%Z -> stated_failure (GetResponse c body)
| stated_malformed_body c :
    stated_failure (GetResponse c None).

(** The failures of the fetch as the code sees them: [requests.get] raised,
    the status is a client or server error, the body does not decode, or the
    decoded body lacks ["hourly"] or one of the six series. *)
Inductive fetch_failure : GetResult -> Prop :=
| transport_failure e :
    fetch_failure (GetRaised e)
| error_status c body :
    (400 <= c < 600)%Z -> fetch_failure (GetResponse c body)
| undecodable_body c :
    fetch_failure (GetResponse c None)
| no_hourly c data e :
    subscript_str data "hourly" = raise e ->
    fetch_failure (GetResponse c (Some data))
| no_series c data hourly key e :
    subscript_str data "hourly" = ok hourly ->
    In key series_keys ->
    subscript_str hourly key = raise e ->
    fetch_failure (GetResponse c (Some data)).

(** The position of a band in the order of severity. *)
Definition rank (b : AqiStatus) : nat :=
  match b with
  | Good => 0
  | Moderate => 1
  | UnhealthyForSensitive => 2
  | Unhealthy => 3
  | VeryUnhealthy => 4
  | Hazardous => 5
  end.

Definition at_least (score : Q) (threshold : option Q) : Prop :=
  match threshold with
  | Some t => (t <= score)%Q
  | None => True
  end.

(** The range of a band with both of its ends. *)
Definition in_closed_band (score : Qc) (b : AqiStatus) : Prop :=
  match band_below b with
  | Some lower => at_least score (upper_threshold lower)
  | None => True
  end /\ within score (upper_threshold b).

(** A series that is true in a boolean context and has no item [-1]. *)
Inductive unindexable : pyval -> Prop :=
| unindexable_number q : truthy (PyNum q) = true -> unindexable (PyNum q)
| unindexable_true : unindexable (PyBool true)
| unindexable_dict entry entries : unindexable (PyDict (entry :: entries)).

(** What a process without a model answers. *)
Definition reply_without_model (reply : Reply) : Prop :=
  match reply with
  | HomeReply payload => payload = home
  | HealthReply h =>
      h = {| health_status := "model_not_loaded"; model_loaded := false |}
  | PredictReply outcome =>
      outcome = raise {| exc_status_code := 500;
                         detail := "Model not loaded" |}
  | PredictCustomReply outcome =>
      outcome = raise {| exc_status_code := 500;
                         detail := "Model not loaded" |}
  end.

(** The number of [/predict] requests among [reqs]. *)
Fixpoint live_requests (reqs : list Request) : nat :=
  match reqs with
  | [] => 0
  | GetPredict _ :: rest => S (live_requests rest)
  | _ :: rest => live_requests rest
  end.

End Contract.

(* ===================================================================== *)
(** ** Concrete inputs used by the examples *)

Module Samples.

Import ApiServer Dashboard.

Definition entry_at (n : nat) : HistoryEntry :=
  {| time := "12:00:00"; aqi := Q2Qc (inject_Z (Z.of_nat n)) |}.

Definition twenty_five_readings : list HistoryEntry :=
  map entry_at (seq 1 25).

(** A body of the shape the provider answers with. *)
Definition provider_body (s_pm10 s_pm2_5 s_no2 s_so2 s_co s_o3 : list pyval)
  : pyval :=
  PyDict
    [ ("latitude", num 28.6); ("longitude", num 77.2);
      ("timezone", PyStr "Asia/Kolkata");
      ("hourly",
        PyDict
          [ ("time", PyList [PyStr "2024-01-01T00:00";
                             PyStr "2024-01-01T01:00"]);
            ("pm10", PyList s_pm10);
            ("pm2_5", PyList s_pm2_5);
            ("nitrogen_dioxide", PyList s_no2);
            ("sulphur_dioxide", PyList s_so2);
            ("carbon_monoxide", PyList s_co);
            ("ozone", PyList s_o3) ]) ].

(** Two hours of data whose last hour is the reading of the scenario
    [{pm2_5: 10, pm10: 20, no2: 15, so2: 5, co: 0.5, o3: 40}]. *)
Definition scenario_body : pyval :=
  provider_body [num 31.5; num 20] [num 18.2; num 10] [num 22; num 15]
    [num 7.5; num 5] [num 0.7; num 0.5] [num 55; num 40].

(** A body where the carbon monoxide series is empty. *)
Definition body_without_co : pyval :=
  provider_body [num 20] [num 10] [num 15] [num 5] [] [num 40].

Definition feature_value (v : pyval) : Except string Qc :=
  match v with
  | PyNum q => ok q
  | _ => raise "could not convert to float"
  end.

(** A regressor over the eight columns
    [PM2.5, PM10, NO, NO2, NH3, CO, SO2, O3]: twice the PM10 column plus
    the PM2.5 column plus an intercept of 0.004. *)
Definition row_score (row : list pyval) : Except string Qc :=
  match row with
  | [c_pm2_5; c_pm10; _; _; _; _; _; _] =>
      (a <- feature_value c_pm2_5 ;;
       b <- feature_value c_pm10 ;;
       ok (Q2Qc (2 * b + a + 0.004)))%except
  | _ => raise "X has a wrong number of features"
  end.

Fixpoint score_rows (rows : list (list pyval)) : Except string (list Qc) :=
  match rows with
  | [] => ok []
  | row :: rest =>
      (y <- row_score row ;;
       ys <- score_rows rest ;;
       ok (y :: ys))%except
  end.

Definition pm_model : Model :=
  {| truth_value := true; predict_fn := score_rows |}.

(** An object that loads and whose truth value is false, as a pipeline
    without steps or an ensemble without estimators has. *)
Definition empty_ensemble : Model :=
  {| truth_value := false;
     predict_fn := fun _ => raise "This instance is not fitted yet" |}.

Definition server_with (m : Model) : Server := startup (ok m).

Definition server_without_model : Server :=
  startup (raise "No such file or directory: model.pkl").

Definition scenario_params : CustomParams :=
  {| q_pm25 := Q2Qc 10; q_pm10 := Q2Qc 20; q_no2 := Q2Qc 15;
     q_so2 := Q2Qc 5; q_co := Q2Qc 0.5; q_o3 := Q2Qc 40;
     q_nh3 := Q2Qc 0 |}.

(** A body whose series are all [null]. *)
Definition body_of_nulls : pyval :=
  PyDict
    [ ("hourly",
        PyDict
          [ ("pm10", PyNone); ("pm2_5", PyNone);
            ("nitrogen_dioxide", PyNone); ("sulphur_dioxide", PyNone);
            ("carbon_monoxide", PyNone); ("ozone", PyNone) ]) ].

(** A body whose ozone series is a single number instead of a list. *)
Definition body_with_scalar_ozone : pyval :=
  PyDict
    [ ("hourly",
        PyDict
          [ ("pm10", PyList [num 20]); ("pm2_5", PyList [num 10]);
            ("nitrogen_dioxide", PyList [num 15]);
            ("sulphur_dioxide", PyList [num 5]);
            ("carbon_monoxide", PyList [num 0.5]);
            ("ozone", num 40) ]) ].

(** A model that answers with no prediction at all. *)
Definition silent_model : Model :=
  {| truth_value := true; predict_fn := fun _ => ok [] |}.

Definition mixed_requests : list Request :=
  [ GetHealth;
    GetPredict (GetResponse 200 (Some scenario_body));
    GetPredictCustom scenario_params;
    GetPredict (GetRaised Timeout);
    GetHome ].

End Samples.

(* ===================================================================== *)
(** ** Facts about the Python operations *)

Module PyFacts.

#[local] Open Scope Q_scope.

Example truthy_zero : truthy (num 0.0) = false.
Proof. reflexivity. Qed.

Example dict_get_keeps_last_binding :
  dict_get "a" [("a", num 1); ("b", num 2); ("a", num 3)] = Some (num 3).
Proof. reflexivity. Qed.

Example subscript_last_of_list :
  subscript_last (PyList [num 1; PyNone; num 3]) = ok (num 3).
Proof. reflexivity. Qed.

Example subscript_last_of_str :
  subscript_last (PyStr "AQI 😊") = ok (PyStr "😊").
Proof. reflexivity. Qed.

Example subscript_last_of_number : subscript_last (num 7) = raise TypeError.
Proof. reflexivity. Qed.

Example binary64_of_a_double : binary64 (1 # 4) == 1 # 4.
Proof. reflexivity. Qed.

(** The float written [50.005] lies a little above 50.005. *)
Example binary64_of_50_005 :
  binary64 50.005 == 7037578105208177 # 140737488355328.
Proof. vm_compute. reflexivity. Qed.

Example round_down : round (Q2Qc 50.004) 2 = Q2Qc 50.
Proof. apply Qc_is_canon. vm_compute. reflexivity. Qed.

(** Its product with 100 is the float 5000.5, a tie, which goes to the
    even 5000: numpy answers 50.0 where exact rounding would give 50.01. *)
Example round_of_the_float_50_005 :
  round (Q2Qc (binary64 50.005)) 2 = Q2Qc 50.
Proof. apply Qc_is_canon. vm_compute. reflexivity. Qed.

Example round_tie_to_even_below :
  round (Q2Qc 0.125) 2 = Q2Qc (binary64 0.12).
Proof. apply Qc_is_canon. vm_compute. reflexivity. Qed.

Example round_tie_to_even_above :
  round (Q2Qc 0.375) 2 = Q2Qc (binary64 0.38).
Proof. apply Qc_is_canon. vm_compute. reflexivity. Qed.

Lemma round_half_even_near (x : Q) :
  x - (1 # 2) <= inject_Z (round_half_even x) <= x + (1 # 2).
Proof.
  unfold round_half_even.
  pose proof (Qfloor_le x) as Hlo. pose proof (Qlt_floor x) as Hhi.
  rewrite inject_Z_plus in Hhi. change (inject_Z 1) with 1 in Hhi.
  destruct (Qcompare_spec (x - inject_Z (Qfloor x)) (1 # 2)) as [E|L|G];
    [destruct (Z.even (Qfloor x))| |];
    rewrite ?inject_Z_plus; change (inject_Z 1) with 1; lra.
Qed.

Lemma Qle_bool_is_false (x y : Q) : Qle_bool x y = false -> y < x.
Proof.
  intros H. apply Qnot_le_lt. intros Hle.
  apply Qle_bool_iff in Hle. congruence.
Qed.

Lemma pow2_pos (e : Z) : 0 < 2 ^ e.
Proof. apply Qpower_0_lt. reflexivity. Qed.

Lemma pow2_Z (n : Z) : (0 <= n)%Z -> inject_Z (2 ^ n) == 2 ^ n.
Proof. intros Hn. now rewrite Zpower_Qpower. Qed.

Lemma Qdiv_le_cross (A B N D : Q) :
  0 < A -> 0 < D -> A <= N -> D <= B -> A / B <= N / D.
Proof.
  intros HA HD HAN HDB.
  assert (Ht : N / D * D == N) by (field; lra).
  assert (Ht0 : 0 <= N / D) by (apply Qle_shift_div_l; lra).
  apply Qle_shift_div_r; [lra|].
  set (t := N / D) in *. nra.
Qed.

(** [floor_log2] does not overshoot. *)
Lemma floor_log2_le (q : Q) : 0 < q -> 2 ^ floor_log2 q <= q.
Proof.
  intros Hq. unfold floor_log2.
  set (a := Z.log2 (Qnum q)). set (b := Z.log2 (Z.pos (Qden q))).
  destruct (Qle_bool (2 ^ (a - b)) q) eqn:E; [now apply Qle_bool_iff|].
  assert (Hn : (0 < Qnum q)%Z).
  { destruct q as [n d]. unfold Qlt in Hq. simpl in *. lia. }
  assert (Ha : (2 ^ a <= Qnum q)%Z) by (apply Z.log2_spec; exact Hn).
  assert (Hb : (Z.pos (Qden q) < 2 ^ (b + 1))%Z).
  { replace (b + 1)%Z with (Z.succ b) by lia.
    apply Z.log2_spec. reflexivity. }
  assert (Ha0 : (0 <= a)%Z) by apply Z.log2_nonneg.
  assert (Hb0 : (0 <= b)%Z) by apply Z.log2_nonneg.
  replace (a - b - 1)%Z with (a - (b + 1))%Z by lia.
  rewrite Qpower_minus by discriminate.
  rewrite <- !pow2_Z by lia.
  rewrite Zle_Qle in Ha. rewrite Zlt_Qlt in Hb.
  assert (Hq' : q == inject_Z (Qnum q) / inject_Z (Z.pos (Qden q))).
  { destruct q as [n d]. simpl. apply Qmake_Qdiv. }
  rewrite Hq'.
  assert (Hp : 0 < inject_Z (2 ^ a)).
  { rewrite pow2_Z by lia. apply pow2_pos. }
  apply Qdiv_le_cross; [exact Hp | reflexivity | exact Ha | lra].
Qed.

Lemma Qdiv_lt_cross (A B N D : Q) :
  0 < B -> 0 < D -> N < A -> B <= D -> 0 < A -> N / D < A / B.
Proof.
  intros HB HD HNA HBD HA.
  assert (Ht : A / B * B == A) by (field; lra).
  assert (Ht0 : 0 < A / B) by (apply Qlt_shift_div_l; lra).
  apply Qlt_shift_div_r; [lra|].
  set (t := A / B) in *. nra.
Qed.

(** [floor_log2] does not undershoot either. *)
Lemma floor_log2_lt (q : Q) : 0 < q -> q < 2 ^ (floor_log2 q + 1).
Proof.
  intros Hq. unfold floor_log2.
  set (a := Z.log2 (Qnum q)). set (b := Z.log2 (Z.pos (Qden q))).
  destruct (Qle_bool (2 ^ (a - b)) q) eqn:E.
  - assert (Hn : (0 < Qnum q)%Z).
    { destruct q as [n d]. unfold Qlt in Hq. simpl in *. lia. }
    assert (Ha : (Qnum q < 2 ^ (a + 1))%Z).
    { replace (a + 1)%Z with (Z.succ a) by lia.
      apply Z.log2_spec. exact Hn. }
    assert (Hb : (2 ^ b <= Z.pos (Qden q))%Z)
      by (apply Z.log2_spec; reflexivity).
    assert (Ha0 : (0 <= a)%Z) by apply Z.log2_nonneg.
    assert (Hb0 : (0 <= b)%Z) by apply Z.log2_nonneg.
    replace (a - b + 1)%Z with (a + 1 - b)%Z by lia.
    rewrite Qpower_minus by discriminate.
    rewrite <- !pow2_Z by lia.
    rewrite Zlt_Qlt in Ha. rewrite Zle_Qle in Hb.
    assert (Hq' : q == inject_Z (Qnum q) / inject_Z (Z.pos (Qden q))).
    { destruct q as [n d]. simpl. apply Qmake_Qdiv. }
    rewrite Hq'.
    assert (Hpb : 0 < inject_Z (2 ^ b)).
    { rewrite pow2_Z by lia. apply pow2_pos. }
    assert (Hpa : 0 < inject_Z (2 ^ (a + 1))).
    { rewrite pow2_Z by lia. apply pow2_pos. }
    apply Qdiv_lt_cross;
      [exact Hpb | reflexivity | exact Ha | exact Hb | exact Hpa].
  - replace (a - b - 1 + 1)%Z with (a - b)%Z by lia.
    now apply Qle_bool_is_false.
Qed.

Lemma Qabs_of_positive (q : Q) : 0 < q -> Qabs q = q.
Proof.
  destruct q as [n d]. unfold Qlt. simpl. intros Hn.
  rewrite Z.abs_eq by lia. reflexivity.
Qed.

Lemma binary64_nonzero (q : Q) :
  ~ q == 0 ->
  binary64 q
    = inject_Z (round_half_even (q / 2 ^ ulp_exponent q))
      * 2 ^ ulp_exponent q.
Proof.
  intros Hq. unfold binary64.
  destruct (Qeq_bool q 0) eqn:E; [|reflexivity].
  apply Qeq_bool_iff in E. contradiction.
Qed.

Lemma binary64_zero (q : Q) : q == 0 -> binary64 q = 0.
Proof.
  intros Hq. unfold binary64. apply Qeq_bool_iff in Hq. now rewrite Hq.
Qed.

(** The last place of a double is at most [2^-52] of its size, or the
    subnormal step. *)
Lemma ulp_bound (q : Q) :
  ~ q == 0 ->
  2 ^ ulp_exponent q <= Qabs q * (1 # 2 ^ 52) + (1 # 2 ^ 59).
Proof.
  intros Hnz.
  assert (Habs : 0 < Qabs q).
  { destruct (Qlt_le_dec 0 q) as [Hpos|Hneg].
    - rewrite Qabs_pos; lra.
    - rewrite Qabs_neg; lra. }
  pose proof (floor_log2_le Habs) as Hl.
  unfold ulp_exponent.
  destruct (Z.max_spec (floor_log2 (Qabs q) - 52) (-1074))
    as [[_ ->]|[_ ->]].
  - assert (H : 2 ^ (-1074) <= 2 ^ (-59))
      by (apply Qpower_le_compat_l; [lia | discriminate]).
    change (2 ^ (-59)) with (1 # 2 ^ 59) in H.
    assert (0 <= Qabs q * (1 # 2 ^ 52))
      by (apply Qmult_le_0_compat; [lra | discriminate]).
    lra.
  - rewrite Qpower_minus by discriminate.
    change (2 ^ 52) with (inject_Z (2 ^ 52)).
    unfold Qdiv. change (/ inject_Z (2 ^ 52)) with (1 # 2 ^ 52).
    assert (0 < (1 # 2 ^ 52)) by reflexivity.
    assert (0 < (1 # 2 ^ 59)) by reflexivity.
    nra.
Qed.

(** The double nearest to [q] is within half a last place of it. *)
Lemma binary64_near (q B : Q) :
  - B <= q <= B ->
  q - (B * (1 # 2 ^ 53) + (1 # 2 ^ 60)) <= binary64 q
    <= q + (B * (1 # 2 ^ 53) + (1 # 2 ^ 60)).
Proof.
  intros HB.
  assert (HB0 : 0 <= B) by lra.
  destruct (Qeq_dec q 0) as [Hz|Hnz].
  - rewrite (binary64_zero Hz).
    assert (0 <= B * (1 # 2 ^ 53))
      by (apply Qmult_le_0_compat; [lra | discriminate]).
    assert (0 < (1 # 2 ^ 60)) by reflexivity. lra.
  - rewrite (binary64_nonzero Hnz).
    pose proof (ulp_bound Hnz) as Hu.
    pose proof (pow2_pos (ulp_exponent q)) as Hp.
    pose proof (round_half_even_near (q / 2 ^ ulp_exponent q)) as Hm.
    assert (Habs : Qabs q <= B) by (apply Qabs_Qle_condition; exact HB).
    assert (Hq : q / 2 ^ ulp_exponent q * 2 ^ ulp_exponent q == q)
      by (field; lra).
    set (u := 2 ^ ulp_exponent q) in *.
    set (m := inject_Z (round_half_even (q / u))) in *.
    set (s := q / u) in *.
    assert (E52 : (1 # 2 ^ 52) == 2 * (1 # 2 ^ 53)) by reflexivity.
    assert (E59 : (1 # 2 ^ 59) == 2 * (1 # 2 ^ 60)) by reflexivity.
    assert (Hlo : (s - (1 # 2)) * u <= m * u)
      by (apply Qmult_le_compat_r; lra).
    assert (Hhi : m * u <= (s + (1 # 2)) * u)
      by (apply Qmult_le_compat_r; lra).
    assert (Hu' : u <= B * (1 # 2 ^ 52) + (1 # 2 ^ 59)).
    { assert (Qabs q * (1 # 2 ^ 52) <= B * (1 # 2 ^ 52))
        by (apply Qmult_le_compat_r; [exact Habs | discriminate]).
      lra. }
    split; nra.
Qed.

(** [round(x, 2)] spelled out. *)
Lemma round_2_unfold (x : Qc) :
  round x 2
    == binary64 (inject_Z (round_half_even (binary64 (x * 100))) / 100).
Proof.
  unfold round. change (inject_Z (10 ^ Z.of_nat 2)) with 100.
  apply Qred_correct.
Qed.

(** For a number of ordinary size [round(x, 2)] is within half a
    hundredth of [x], up to the error of the three float operations. *)
Lemma round_2_near (x : Qc) :
  - 1000000 <= x <= 1000000 ->
  x - (1 # 200) - (1 # 1000000000) <= round x 2
    <= x + (1 # 200) + (1 # 1000000000).
Proof.
  intros Hx. rewrite round_2_unfold.
  assert (Ha : - 100000000 <= x * 100 <= 100000000) by lra.
  pose proof (@binary64_near (x * 100) 100000000 Ha) as Hfa.
  pose proof (round_half_even_near (binary64 (x * 100))) as Hn.
  set (fa := binary64 (x * 100)) in *.
  set (n := inject_Z (round_half_even fa)) in *.
  set (eps := 1 # 2 ^ 53) in *. set (tiny := 1 # 2 ^ 60) in *.
  assert (Eeps : eps == 1 # 9007199254740992) by reflexivity.
  assert (Etiny : tiny == 1 # 1152921504606846976) by reflexivity.
  assert (Hb : - 1000001 <= n / 100 <= 1000001).
  { unfold Qdiv. change (/ 100) with (1 # 100). lra. }
  pose proof (@binary64_near (n / 100) 1000001 Hb) as Hr.
  fold eps tiny in Hr.
  unfold Qdiv in *. change (/ 100) with (1 # 100) in *.
  lra.
Qed.

End PyFacts.

(* ===================================================================== *)
(** ** Properties of the history buffer *)

Module DashboardSpec.

Import Dashboard.
#[local] Open Scope list_scope.

Section History.

Implicit Types (h readings : list HistoryEntry) (r : HistoryEntry).

Lemma refreshes_snoc h readings r :
  refreshes h (readings ++ [r]) = update_history (refreshes h readings) r.
Proof. unfold refreshes. now rewrite fold_left_app. Qed.

Lemma tl_skipn {A} (k : nat) (l : list A) : tl (skipn k l) = skipn (S k) l.
Proof.
  revert l. induction k as [|k IH]; intros [|x l]; try reflexivity.
  apply IH.
Qed.

(** One update keeps a buffer of at most 20 entries within 20. *)
Lemma update_history_bounded h r :
  (length h <= 20)%nat -> (length (update_history h r) <= 20)%nat.
Proof.
  intros Hlen. unfold update_history, pop0.
  destruct (Nat.ltb_spec 20 (length (h ++ [r]))) as [Hgt|Hle]; [|exact Hle].
  rewrite length_app in Hgt. simpl in Hgt.
  destruct h as [|x h']; simpl in *; [lia|].
  rewrite length_app. simpl. lia.
Qed.

(** Starting from the empty history the buffer is, after any number of
    refreshes, the last 20 readings in arrival order. *)
Lemma refreshes_from_empty readings :
  refreshes [] readings = skipn (length readings - 20) readings.
Proof.
  induction readings as [|r readings IH] using rev_ind; [reflexivity|].
  rewrite refreshes_snoc, IH. unfold update_history, pop0.
  rewrite !length_app, length_skipn. simpl.
  destruct (Nat.ltb_spec 20 (length readings - (length readings - 20) + 1))
    as [Hfull|Hroom].
  - rewrite skipn_app.
    replace (length readings + 1 - 20 - length readings)%nat with 0%nat by lia.
    replace (length readings + 1 - 20)%nat
      with (S (length readings - 20)) by lia.
    rewrite <- tl_skipn. simpl.
    destruct (skipn (length readings - 20) readings) eqn:E; [|reflexivity].
    apply (f_equal (@length _)) in E. rewrite length_skipn in E.
    simpl in E. lia.
  - replace (length readings + 1 - 20)%nat with 0%nat by lia.
    replace (length readings - 20)%nat with 0%nat by lia.
    reflexivity.
Qed.

(** C4: from an empty history, 25 refreshes leave exactly the 20 most
    recent readings in arrival order (the 5 oldest are gone), and after
    each of the refreshes the buffer is the most recent readings so far,
    never more than 20 of them. *)
Theorem history_keeps_most_recent_20 readings :
  length readings = 25%nat ->
  refreshes [] readings = skipn 5 readings /\
  length (refreshes [] readings) = 20%nat /\
  forall k,
    refreshes [] (firstn k readings)
      = skipn (length (firstn k readings) - 20) (firstn k readings) /\
    (length (refreshes [] (firstn k readings)) <= 20)%nat.
Proof.
  intros H25. repeat split.
  - rewrite refreshes_from_empty, H25. reflexivity.
  - rewrite refreshes_from_empty, length_skipn, H25. reflexivity.
  - apply refreshes_from_empty.
  - rewrite refreshes_from_empty, length_skipn. lia.
Qed.

End History.

Lemma history_keeps_most_recent_20_witness :
  length Samples.twenty_five_readings = 25%nat /\
  refreshes [] Samples.twenty_five_readings
    = map Samples.entry_at (seq 6 20).
Proof.
  split; [reflexivity|].
  exact (proj1 (history_keeps_most_recent_20
                  Samples.twenty_five_readings eq_refl)).
Defined.

End DashboardSpec.

(* ===================================================================== *)
(** ** Properties of the prediction service *)

Module ApiServerSpec.

Import ApiServer Contract.

(** *** The classifier *)

Lemma Qle_bool_false (x y : Q) : Qle_bool x y = false -> (y < x)%Q.
Proof.
  intros H. apply Qnot_le_lt. intros Hle.
  apply Qle_bool_iff in Hle. congruence.
Qed.

(** Runs [get_aqi_status] symbolically: one goal per branch, with the
    comparisons that led there as hypotheses. *)
Ltac by_thresholds :=
  unfold get_aqi_status;
  repeat match goal with
  | |- context [Qle_bool ?x ?y] =>
      let H := fresh "Hcmp" in
      destruct (Qle_bool x y) eqn:H;
      [apply Qle_bool_iff in H | apply Qle_bool_false in H]
  end.

Lemma get_aqi_status_in_band (aqi : Qc) (b : AqiStatus) :
  get_aqi_status aqi = label b <-> in_band aqi b.
Proof.
  unfold in_band, above, within.
  by_thresholds; destruct b; simpl; split;
    first [ discriminate
          | reflexivity
          | intros _; split; [exact I || lra | exact I || lra]
          | intros [Hlo Hhi]; exfalso; lra ].
Qed.

(** C2: a score is labelled with the band whose inclusive upper threshold
    it does not exceed (and whose lower neighbour's threshold it exceeds);
    the boundary scores 50, 100, 150, 200, 300 belong to the lower band
    and 51, 101, 151, 201, 301 to the upper one. *)
Theorem get_aqi_status_thresholds :
  (forall (aqi : Qc) (b : AqiStatus),
      get_aqi_status aqi = label b <-> in_band aqi b) /\
  map get_aqi_status (map Q2Qc [50; 100; 150; 200; 300]%Q)
    = map label [Good; Moderate; UnhealthyForSensitive; Unhealthy;
                 VeryUnhealthy] /\
  map get_aqi_status (map Q2Qc [51; 101; 151; 201; 301]%Q)
    = map label [Moderate; UnhealthyForSensitive; Unhealthy;
                 VeryUnhealthy; Hazardous].
Proof.
  split; [exact get_aqi_status_in_band|].
  split; reflexivity.
Qed.

(** C9: [get_aqi_status] answers, for every score, one of the six labels,
    and every negative score is labelled Good. *)
Theorem get_aqi_status_total (aqi : Qc) :
  In (get_aqi_status aqi) (map label all_statuses) /\
  ((aqi < 0)%Q -> get_aqi_status aqi = label Good).
Proof.
  split.
  - by_thresholds; simpl; tauto.
  - intros Hneg. apply get_aqi_status_in_band.
    split; [exact I|]. simpl. lra.
Qed.

Lemma get_aqi_status_total_witness :
  get_aqi_status (Q2Qc (-12.5)) = "Good 😊".
Proof.
  apply (proj2 (get_aqi_status_total (Q2Qc (-12.5)))).
  reflexivity.
Defined.

(** *** The pollutant source *)

Section PollutantSource.

Implicit Types (net : GetResult) (srv : Server) (hourly data : pyval).

(** The handler of the [try]: what the body returned, or the fallback. *)
Lemma fetch_live_data_run net srv :
  fetch_live_data net srv =
    match fetch_live_data_try net with
    | inr latest => (latest, logged srv (FetchedLiveData latest))
    | inl e => (fallback_reading, logged srv (FetchError e))
    end.
Proof. unfold fetch_live_data. now destruct (fetch_live_data_try net). Qed.

Lemma rev_head_last {A} (l : list A) (d : A) :
  match rev l with x :: _ => x | [] => d end = last l d.
Proof.
  induction l as [|x l _] using rev_ind; [reflexivity|].
  now rewrite rev_unit, last_last.
Qed.

Lemma latest_of_missing hourly key e :
  subscript_str hourly key = raise e -> latest_of hourly key = raise e.
Proof. intros H. unfold latest_of. now rewrite H. Qed.

Lemma latest_of_list hourly key items :
  subscript_str hourly key = ok (PyList items) ->
  latest_of hourly key = ok (last items (num 0)).
Proof.
  intros H. unfold latest_of. rewrite H. simpl.
  destruct items as [|x items]; [reflexivity|].
  rewrite <- (rev_head_last (x :: items) (num 0)).
  cbn [ebind ok truthy subscript_last].
  destruct (rev (x :: items)) eqn:E; [|reflexivity].
  apply (f_equal (@length _)) in E. rewrite length_rev in E. discriminate E.
Qed.

Lemma raise_for_status_error c body :
  (400 <= c < 600)%Z ->
  raise_for_status {| resp_status_code := c; resp_json := body |}
    = raise (HTTPError c).
Proof.
  intros [Hlo Hhi]. unfold raise_for_status. simpl.
  apply Z.leb_le in Hlo. apply Z.ltb_lt in Hhi. now rewrite Hlo, Hhi.
Qed.

Lemma raise_for_status_success c body :
  (200 <= c < 300)%Z ->
  raise_for_status {| resp_status_code := c; resp_json := body |} = ok tt.
Proof.
  intros [Hlo Hhi]. unfold raise_for_status. simpl.
  destruct (Z.ltb_spec c 600) as [_|Hge]; [|lia].
  destruct (Z.leb_spec 400 c) as [Hge|_]; [lia|reflexivity].
Qed.

(** Every failure the code sees makes the body of the [try] raise. *)
Lemma fetch_failure_raises net :
  fetch_failure net -> exists e, fetch_live_data_try net = raise e.
Proof.
  intros [e | c body Hc | c | c data e Hd | c data hourly key e Hd Hin Hk].
  - now exists e.
  - exists (HTTPError c). unfold fetch_live_data_try. simpl.
    now rewrite raise_for_status_error.
  - unfold fetch_live_data_try. simpl.
    destruct (raise_for_status _); simpl; eauto.
  - unfold fetch_live_data_try. simpl.
    destruct (raise_for_status _); simpl; eauto.
    rewrite Hd. simpl. eauto.
  - unfold fetch_live_data_try. simpl.
    destruct (raise_for_status _); simpl; eauto.
    rewrite Hd. simpl.
    assert (Hraise : latest_of hourly key = raise e)
      by now apply latest_of_missing.
    unfold series_keys in Hin. simpl in Hin.
    repeat (destruct Hin as [<- | Hin]); try contradiction;
      rewrite Hraise;
      repeat match goal with
      | |- context [latest_of ?h ?k] => destruct (latest_of h k)
      end; simpl; eauto.
Qed.

(** C3 (as amended): whenever the fetch fails in a way the code sees (a
    transport error such as a timeout, a 4xx or 5xx status, a body that
    does not decode or lacks a series) [fetch_live_data] returns, without
    raising, exactly the fallback reading, and logs the error. *)
Theorem fetch_live_data_fallback net srv :
  fetch_failure net ->
  exists e,
    fetch_live_data net srv =
      ({| pm2_5 := num 25.0; pm10 := num 45.0; no2 := num 12.0;
          so2 := num 5.0; co := num 0.5; o3 := num 45.0; nh3 := num 0.0 |},
       logged srv (FetchError e)).
Proof.
  intros Hfail. destruct (fetch_failure_raises Hfail) as [e He].
  exists e. rewrite fetch_live_data_run, He. reflexivity.
Qed.

Lemma fetch_live_data_fallback_witness :
  fetch_failure (GetResponse 503 None) /\
  exists e,
    fetch_live_data (GetResponse 503 None) Samples.server_without_model =
      (fallback_reading, logged Samples.server_without_model (FetchError e)).
Proof.
  assert (H : fetch_failure (GetResponse 503 None))
    by (apply error_status; lia).
  split; [exact H|].
  exact (fetch_live_data_fallback Samples.server_without_model H).
Defined.

(** C3 (as stated) fails: status 300 is not 2xx, yet a well-formed body
    that comes with it is read like any other and the fallback is not
    used. *)
Lemma fetch_live_data_reads_body_of_status_300 :
  stated_failure (GetResponse 300 (Some Samples.scenario_body)) /\
  fst (fetch_live_data (GetResponse 300 (Some Samples.scenario_body))
         Samples.server_without_model)
    = {| pm2_5 := num 10; pm10 := num 20; no2 := num 15; so2 := num 5;
         co := num 0.5; o3 := num 40; nh3 := num 0.0 |} /\
  fst (fetch_live_data (GetResponse 300 (Some Samples.scenario_body))
         Samples.server_without_model)
    <> fallback_reading.
Proof.
  split; [apply stated_non_2xx; lia|].
  split; [reflexivity|].
  intros H.
  apply (f_equal (fun r => match pm2_5 r with
                           | PyNum q => this q
                           | _ => 0%Q
                           end)) in H.
  vm_compute in H. discriminate H.
Qed.

(** C7: on a successful response whose six series are lists, the reading
    holds the last value of each series, [0] for an empty one, and
    [nh3] is [0.0]. *)
Theorem fetch_live_data_latest c data hourly
    s_pm2_5 s_pm10 s_no2 s_so2 s_co s_o3 srv :
  (200 <= c < 300)%Z ->
  subscript_str data "hourly" = ok hourly ->
  subscript_str hourly "pm2_5" = ok (PyList s_pm2_5) ->
  subscript_str hourly "pm10" = ok (PyList s_pm10) ->
  subscript_str hourly "nitrogen_dioxide" = ok (PyList s_no2) ->
  subscript_str hourly "sulphur_dioxide" = ok (PyList s_so2) ->
  subscript_str hourly "carbon_monoxide" = ok (PyList s_co) ->
  subscript_str hourly "ozone" = ok (PyList s_o3) ->
  fst (fetch_live_data (GetResponse c (Some data)) srv) =
    {| pm2_5 := last s_pm2_5 (num 0);
       pm10 := last s_pm10 (num 0);
       no2 := last s_no2 (num 0);
       so2 := last s_so2 (num 0);
       co := last s_co (num 0);
       o3 := last s_o3 (num 0);
       nh3 := num 0.0 |}.
Proof.
  intros Hc Hd H1 H2 H3 H4 H5 H6.
  rewrite fetch_live_data_run. unfold fetch_live_data_try. simpl.
  rewrite (raise_for_status_success _ Hc). simpl. rewrite Hd. simpl.
  rewrite (latest_of_list _ _ H1), (latest_of_list _ _ H2),
    (latest_of_list _ _ H3), (latest_of_list _ _ H4),
    (latest_of_list _ _ H5), (latest_of_list _ _ H6).
  reflexivity.
Qed.

Lemma fetch_live_data_latest_witness :
  fst (fetch_live_data (GetResponse 200 (Some Samples.body_without_co))
         Samples.server_without_model)
    = {| pm2_5 := num 10; pm10 := num 20; no2 := num 15; so2 := num 5;
         co := num 0; o3 := num 40; nh3 := num 0.0 |}.
Proof.
  apply (@fetch_live_data_latest 200 Samples.body_without_co
           (PyDict
              [ ("time", PyList [PyStr "2024-01-01T00:00";
                                 PyStr "2024-01-01T01:00"]);
                ("pm10", PyList [num 20]);
                ("pm2_5", PyList [num 10]);
                ("nitrogen_dioxide", PyList [num 15]);
                ("sulphur_dioxide", PyList [num 5]);
                ("carbon_monoxide", PyList []);
                ("ozone", PyList [num 40]) ])
           [num 10] [num 20] [num 15] [num 5] [] [num 40]);
    solve [lia | reflexivity].
Defined.

End PollutantSource.

(** *** The prediction service *)

Section PredictionService.

Implicit Types (net : GetResult) (srv : Server) (p : CustomParams).

Lemma num_0_0 : num 0.0 = num 0.
Proof. unfold num. f_equal. now apply Qc_is_canon. Qed.

(** C5: without a model both entry points answer the 500 error
    "Model not loaded", never a score, and leave the server as it was. *)
Theorem model_absent_is_an_error net p srv :
  model srv = None ->
  predict net srv =
    (raise {| exc_status_code := 500; detail := "Model not loaded" |}, srv)
  /\
  predict_custom p srv =
    (raise {| exc_status_code := 500; detail := "Model not loaded" |}, srv).
Proof.
  intros Hnone. unfold predict, predict_custom, sbind, gets.
  rewrite Hnone. split; reflexivity.
Qed.

Lemma model_absent_is_an_error_witness :
  fst (predict (GetResponse 200 (Some Samples.scenario_body))
         Samples.server_without_model)
    = raise {| exc_status_code := 500; detail := "Model not loaded" |} /\
  fst (predict_custom Samples.scenario_params Samples.server_without_model)
    = raise {| exc_status_code := 500; detail := "Model not loaded" |}.
Proof.
  destruct (@model_absent_is_an_error
              (GetResponse 200 (Some Samples.scenario_body))
              Samples.scenario_params
              Samples.server_without_model eq_refl) as [Hl Hc].
  rewrite Hl, Hc. split; reflexivity.
Defined.

(** What [predict] answers once the model is there. *)
Lemma predict_run net srv mdl :
  model srv = Some mdl ->
  fst (predict net srv) =
    let data := fst (fetch_live_data net srv) in
    prediction_error
      (prediction <- predict_first mdl [live_features data] ;;
       ok {| live_AQI_Predicted := round prediction 2;
             live_status := get_aqi_status prediction;
             pollutants := data;
             location := "Delhi, India";
             timestamp := "Live data" |})%except.
Proof.
  intros Hm. unfold predict, sbind, gets. rewrite Hm.
  now destruct (fetch_live_data net srv).
Qed.

(** C6: for the reading [{pm2_5: 10, pm10: 20, no2: 15, so2: 5, co: 0.5,
    o3: 40, nh3: 0}] the live path builds the row
    [[10, 20, 0, 15, 0, 0.5, 5, 40]]; the answer carries the model's output
    rounded to 2 decimals the way numpy rounds a float (the double of
    [rint(y * 100) / 100], for an output of ordinary size within half a
    hundredth of it up to the floating-point error), and its status is the
    band of the unrounded output. *)
Theorem predict_scenario net srv mdl y rest :
  model srv = Some mdl ->
  fst (fetch_live_data net srv) =
    {| pm2_5 := num 10; pm10 := num 20; no2 := num 15; so2 := num 5;
       co := num 0.5; o3 := num 40; nh3 := num 0 |} ->
  predict_fn mdl
    [[num 10; num 20; num 0; num 15; num 0; num 0.5; num 5; num 40]]
    = ok (y :: rest) ->
  live_features (fst (fetch_live_data net srv))
    = [num 10; num 20; num 0; num 15; num 0; num 0.5; num 5; num 40] /\
  exists answer,
    fst (predict net srv) = ok answer /\
    live_AQI_Predicted answer = round y 2 /\
    (live_AQI_Predicted answer ==
       binary64 (inject_Z (round_half_even (binary64 (y * 100))) / 100))%Q /\
    ((- 1000000 <= y <= 1000000)%Q ->
     (y - (1 # 200) - (1 # 1000000000) <= live_AQI_Predicted answer
        <= y + (1 # 200) + (1 # 1000000000))%Q) /\
    live_status answer = get_aqi_status y /\
    (forall b, live_status answer = label b <-> in_band y b) /\
    pollutants answer = fst (fetch_live_data net srv).
Proof.
  intros Hm Hdata Hy.
  assert (Hrow : live_features (fst (fetch_live_data net srv))
            = [num 10; num 20; num 0; num 15; num 0; num 0.5; num 5; num 40])
    by (rewrite Hdata; unfold live_features; simpl; now rewrite num_0_0).
  split; [exact Hrow|].
  rewrite (@predict_run net srv mdl Hm). cbv zeta. rewrite Hrow.
  unfold predict_first. rewrite Hy. simpl.
  eexists. split; [reflexivity|]. simpl.
  split; [reflexivity|].
  split; [apply PyFacts.round_2_unfold|].
  split; [apply PyFacts.round_2_near|].
  split; [reflexivity|].
  split; [intros b; apply get_aqi_status_in_band | reflexivity].
Qed.

Lemma predict_scenario_witness :
  exists answer,
    fst (predict (GetResponse 200 (Some Samples.scenario_body))
           (Samples.server_with Samples.pm_model)) = ok answer /\
    live_AQI_Predicted answer = Q2Qc 50 /\
    live_status answer = "Moderate 😐".
Proof.
  assert (Hdata :
    fst (fetch_live_data (GetResponse 200 (Some Samples.scenario_body))
           (Samples.server_with Samples.pm_model))
      = {| pm2_5 := num 10; pm10 := num 20; no2 := num 15; so2 := num 5;
           co := num 0.5; o3 := num 40; nh3 := num 0 |}).
  { transitivity
      {| pm2_5 := num 10; pm10 := num 20; no2 := num 15; so2 := num 5;
         co := num 0.5; o3 := num 40; nh3 := num 0.0 |};
      [reflexivity | now rewrite num_0_0]. }
  destruct (@predict_scenario
              (GetResponse 200 (Some Samples.scenario_body))
              (Samples.server_with Samples.pm_model)
              Samples.pm_model (Q2Qc (2 * Q2Qc 20 + Q2Qc 10 + 0.004)) []
              eq_refl Hdata eq_refl)
    as [_ [answer [Hrun [Haqi [_ [_ [Hstatus _]]]]]]].
  exists answer. split; [exact Hrun|]. rewrite Haqi, Hstatus.
  split; [now apply Qc_is_canon | reflexivity].
Defined.


(** When do the two entry points build the same row?  Only when every
    value but PM2.5 is zero. *)
Lemma features_agree_iff p :
  live_features (reading_of p) = custom_features p <->
  q_pm10 p = Q2Qc 0 /\ q_no2 p = Q2Qc 0 /\ q_nh3 p = Q2Qc 0 /\
  q_co p = Q2Qc 0 /\ q_so2 p = Q2Qc 0 /\ q_o3 p = Q2Qc 0.
Proof.
  unfold live_features, custom_features, reading_of, num. simpl. split.
  - intros H. injection H as H1 H2 H3 H4 H5 H6 H7.
    assert (E0 : Q2Qc 0.0 = Q2Qc 0) by now apply Qc_is_canon.
    rewrite E0 in *. subst. repeat split; congruence.
  - intros (-> & -> & -> & -> & -> & ->).
    assert (E0 : Q2Qc 0.0 = Q2Qc 0) by now apply Qc_is_canon.
    rewrite E0. reflexivity.
Qed.

(** C1 fails on the code: for the values [pm2_5 = 10, pm10 = 20, no2 = 15,
    so2 = 5, co = 0.5, o3 = 40, nh3 = 0] the live path builds
    [[10, 20, 0, 15, 0, 0.5, 5, 40]] and the custom path
    [[10, 0, 15, 0, 0.5, 5, 40, 20]]; a model that reads the PM10 column
    answers 50.0 on the first and 10.0 on the second. *)
Theorem feature_order_mismatch :
  live_features (reading_of Samples.scenario_params)
    = [num 10; num 20; num 0; num 15; num 0; num 0.5; num 5; num 40] /\
  custom_features Samples.scenario_params
    = [num 10; num 0; num 15; num 0; num 0.5; num 5; num 40; num 20] /\
  live_features (reading_of Samples.scenario_params)
    <> custom_features Samples.scenario_params /\
  exists live custom,
    fst (predict (GetResponse 200 (Some Samples.scenario_body))
           (Samples.server_with Samples.pm_model)) = ok live /\
    fst (predict_custom Samples.scenario_params
           (Samples.server_with Samples.pm_model)) = ok custom /\
    pollutants live = reading_of Samples.scenario_params /\
    live_AQI_Predicted live = Q2Qc 50 /\
    custom_AQI_Predicted custom = Q2Qc 10 /\
    live_status live <> custom_status custom.
Proof.
  split; [unfold live_features; simpl; now rewrite num_0_0|].
  split; [unfold custom_features; simpl; now rewrite num_0_0|].
  split.
  - intros H. apply features_agree_iff in H. destruct H as [H _].
    apply (f_equal this) in H. discriminate H.
  - eexists. eexists.
    split; [reflexivity|]. split; [reflexivity|]. simpl.
    split; [unfold reading_of; simpl; now rewrite num_0_0|].
    split; [now apply Qc_is_canon|].
    split; [now apply Qc_is_canon|].
    vm_compute. discriminate.
Qed.

(** *** The health endpoint *)

Lemma health_check_run srv :
  health_check srv =
    ({| health_status :=
          if model_truthy (model srv) then "healthy" else "model_not_loaded";
        model_loaded := is_not_None (model srv) |}, srv).
Proof. reflexivity. Qed.

(** The two fields agree as long as the loaded object is truthy. *)
Lemma health_check_consistent_if_truthy srv :
  model_truthy (model srv) = is_not_None (model srv) ->
  (health_status (fst (health_check srv)) = "healthy" <->
   model_loaded (fst (health_check srv)) = true).
Proof.
  rewrite health_check_run. simpl. intros ->.
  destruct (is_not_None (model srv)); split; auto; discriminate.
Qed.

(** C10 fails on the code: a loaded object whose truth value is false is
    reported as ["model_not_loaded"] with [model_loaded = true]. *)
Theorem health_check_of_falsy_model :
  model (Samples.server_with Samples.empty_ensemble) <> None /\
  fst (health_check (Samples.server_with Samples.empty_ensemble))
    = {| health_status := "model_not_loaded"; model_loaded := true |}.
Proof. split; [discriminate | reflexivity]. Qed.

End PredictionService.

End ApiServerSpec.

(* ===================================================================== *)
(** ** Further properties of the classifier and of rounding *)

Module ClassifierProperties.

Import ApiServer Contract.
#[local] Open Scope Q_scope.

(** X1: A higher score never gets a milder status. *)
Theorem get_aqi_status_monotone (aqi1 aqi2 : Qc) (b1 b2 : AqiStatus) :
  aqi1 <= aqi2 ->
  get_aqi_status aqi1 = label b1 ->
  get_aqi_status aqi2 = label b2 ->
  (rank b1 <= rank b2)%nat.
Proof.
  intros Hle H1 H2.
  apply ApiServerSpec.get_aqi_status_in_band in H1, H2.
  unfold in_band, above, within in H1, H2.
  destruct b1, b2; simpl in *; try lia;
    destruct H1 as [Hlo1 Hhi1], H2 as [Hlo2 Hhi2]; exfalso; lra.
Qed.

Lemma get_aqi_status_monotone_witness :
  (rank Moderate <= rank Unhealthy)%nat.
Proof.
  apply (@get_aqi_status_monotone (Q2Qc 75.5) (Q2Qc 180) Moderate Unhealthy);
    reflexivity || (vm_compute; discriminate).
Defined.

Lemma round_half_even_below (x : Q) (t : Z) :
  x <= inject_Z t -> (round_half_even x <= t)%Z.
Proof.
  intros Hx. unfold round_half_even.
  pose proof (Qfloor_le x) as Hfloor.
  assert (Hft : (Qfloor x <= t)%Z)
    by (rewrite <- (Qfloor_Z t); now apply Qfloor_resp_le).
  assert (Hstep : 1 # 2 <= x - inject_Z (Qfloor x) -> (Qfloor x + 1 <= t)%Z).
  { intros Hhalf.
    assert (Hlt : inject_Z (Qfloor x) < inject_Z t) by lra.
    rewrite <- Zlt_Qlt in Hlt. lia. }
  destruct (Qcompare_spec (x - inject_Z (Qfloor x)) (1 # 2)) as [E|L|G].
  - destruct (Z.even (Qfloor x)); [exact Hft | apply Hstep; lra].
  - exact Hft.
  - apply Hstep. lra.
Qed.

Lemma round_half_even_above (x : Q) (t : Z) :
  inject_Z t <= x -> (t <= round_half_even x)%Z.
Proof.
  intros Hx. unfold round_half_even.
  assert (Hft : (t <= Qfloor x)%Z)
    by (rewrite <- (Qfloor_Z t); now apply Qfloor_resp_le).
  destruct (Qcompare (x - inject_Z (Qfloor x)) (1 # 2));
    [destruct (Z.even (Qfloor x))| |]; lia.
Qed.

(** For a positive number below [2^53] the last place is [2^0] or finer. *)
Lemma ulp_exponent_small (q : Q) (c : Z) :
  0 < q -> q <= inject_Z c -> (c < 2 ^ 53)%Z -> (ulp_exponent q <= 0)%Z.
Proof.
  intros Hq Hc H53. unfold ulp_exponent.
  rewrite (PyFacts.Qabs_of_positive Hq).
  pose proof (PyFacts.floor_log2_le Hq) as Hl.
  assert (Hlt : 2 ^ floor_log2 q < 2 ^ 53).
  { rewrite Zlt_Qlt in H53. rewrite PyFacts.pow2_Z in H53 by lia. lra. }
  apply Qpower_lt_compat_l_inv in Hlt; [lia | reflexivity].
Qed.

(** A whole number is a whole number of last places when these are fine. *)
Lemma scaled_integer (c e : Z) :
  (e <= 0)%Z -> inject_Z c / 2 ^ e == inject_Z (c * 2 ^ (- e)).
Proof.
  intros He. rewrite inject_Z_mult, PyFacts.pow2_Z by lia.
  rewrite Qpower_opp. reflexivity.
Qed.

Lemma scaled_back (n e : Z) : inject_Z n / 2 ^ e * 2 ^ e == inject_Z n.
Proof. field. apply Qpower_not_0. discriminate. Qed.

(** Rounding to the nearest double does not cross a whole number that is
    itself a double. *)
Lemma binary64_below (q : Q) (c : Z) :
  (0 < c < 2 ^ 53)%Z -> q <= inject_Z c -> binary64 q <= inject_Z c.
Proof.
  intros [Hc0 Hc53] Hq.
  assert (Hc : 0 < inject_Z c) by (rewrite Zlt_Qlt in Hc0; exact Hc0).
  destruct (Qeq_dec q 0) as [Hz|Hnz];
    [rewrite (PyFacts.binary64_zero Hz); lra|].
  rewrite (PyFacts.binary64_nonzero Hnz).
  pose proof (PyFacts.pow2_pos (ulp_exponent q)) as Hp.
  destruct (Qlt_le_dec 0 q) as [Hpos|Hneg].
  - assert (He : (ulp_exponent q <= 0)%Z)
      by (apply (ulp_exponent_small Hpos Hq Hc53)).
    assert (Hn : (round_half_even (q / 2 ^ ulp_exponent q)
                  <= c * 2 ^ (- ulp_exponent q))%Z).
    { apply round_half_even_below. rewrite <- (scaled_integer c He).
      unfold Qdiv. apply Qmult_le_compat_r; [exact Hq|].
      apply Qlt_le_weak, Qinv_lt_0_compat, Hp. }
    rewrite Zle_Qle, <- (scaled_integer c He) in Hn.
    rewrite <- (scaled_back c (ulp_exponent q)).
    apply Qmult_le_compat_r; [exact Hn | lra].
  - assert (Hn : (round_half_even (q / 2 ^ ulp_exponent q) <= 0)%Z).
    { apply round_half_even_below. change (inject_Z 0) with 0.
      apply Qle_shift_div_r; [exact Hp | lra]. }
    rewrite Zle_Qle in Hn. change (inject_Z 0) with 0 in Hn.
    set (m := inject_Z (round_half_even (q / 2 ^ ulp_exponent q))) in *.
    nra.
Qed.

Lemma binary64_above (q : Q) (c : Z) :
  (0 < c < 2 ^ 53)%Z -> inject_Z c <= q -> inject_Z c <= binary64 q.
Proof.
  intros [Hc0 Hc53] Hq.
  assert (Hc : 0 < inject_Z c) by (rewrite Zlt_Qlt in Hc0; exact Hc0).
  assert (Hpos : 0 < q) by lra.
  assert (Hnz : ~ q == 0) by lra.
  rewrite (PyFacts.binary64_nonzero Hnz).
  pose proof (PyFacts.pow2_pos (ulp_exponent q)) as Hp.
  destruct (Z_le_gt_dec (ulp_exponent q) 0) as [He|He].
  - assert (Hn : (c * 2 ^ (- ulp_exponent q)
                  <= round_half_even (q / 2 ^ ulp_exponent q))%Z).
    { apply round_half_even_above. rewrite <- (scaled_integer c He).
      unfold Qdiv. apply Qmult_le_compat_r; [exact Hq|].
      apply Qlt_le_weak, Qinv_lt_0_compat, Hp. }
    rewrite Zle_Qle, <- (scaled_integer c He) in Hn.
    rewrite <- (scaled_back c (ulp_exponent q)).
    apply Qmult_le_compat_r; [exact Hn | lra].
  - assert (Hl : ulp_exponent q = (floor_log2 q - 52)%Z).
    { unfold ulp_exponent in *.
      rewrite (PyFacts.Qabs_of_positive Hpos) in *. lia. }
    assert (Hbig : inject_Z (2 ^ 52) <= q / 2 ^ ulp_exponent q).
    { apply Qle_shift_div_l; [exact Hp|].
      rewrite PyFacts.pow2_Z by lia.
      rewrite <- Qpower_plus by discriminate.
      rewrite Hl.
      replace (52 + (floor_log2 q - 52))%Z with (floor_log2 q) by lia.
      now apply PyFacts.floor_log2_le. }
    apply round_half_even_above in Hbig. rewrite Zle_Qle in Hbig.
    assert (H2 : 2 ^ 1 <= 2 ^ ulp_exponent q)
      by (apply Qpower_le_compat_l; [lia | discriminate]).
    change (2 ^ 1) with 2 in H2.
    assert (Hc' : inject_Z c < inject_Z (2 ^ 53))
      by (rewrite <- Zlt_Qlt; exact Hc53).
    change (inject_Z (2 ^ 53)) with (2 * inject_Z (2 ^ 52)) in Hc'.
    assert (H52 : 0 < inject_Z (2 ^ 52)) by reflexivity.
    set (m := inject_Z (round_half_even (q / 2 ^ ulp_exponent q))) in *.
    set (k := inject_Z (2 ^ 52)) in *.
    nra.
Qed.

(** Rounding to 2 decimals does not cross a whole number (here: one up to
    1000, as the thresholds are). *)
Lemma round_2_below (y : Qc) (t : Z) :
  (0 < t <= 1000)%Z -> y <= inject_Z t -> round y 2 <= inject_Z t.
Proof.
  intros Ht Hy. rewrite PyFacts.round_2_unfold.
  apply binary64_below; [lia|].
  assert (Hn : (round_half_even (binary64 (y * 100)) <= t * 100)%Z).
  { apply round_half_even_below, binary64_below; [lia|].
    rewrite inject_Z_mult. change (inject_Z 100) with 100. lra. }
  rewrite Zle_Qle, inject_Z_mult in Hn. change (inject_Z 100) with 100 in Hn.
  unfold Qdiv. change (/ 100) with (1 # 100). lra.
Qed.

Lemma round_2_above (y : Qc) (t : Z) :
  (0 < t <= 1000)%Z -> inject_Z t <= y -> inject_Z t <= round y 2.
Proof.
  intros Ht Hy. rewrite PyFacts.round_2_unfold.
  apply binary64_above; [lia|].
  assert (Hn : (t * 100 <= round_half_even (binary64 (y * 100)))%Z).
  { apply round_half_even_above, binary64_above; [lia|].
    rewrite inject_Z_mult. change (inject_Z 100) with 100. lra. }
  rewrite Zle_Qle, inject_Z_mult in Hn. change (inject_Z 100) with 100 in Hn.
  unfold Qdiv. change (/ 100) with (1 # 100). lra.
Qed.

(** The rounded score stays in the closed range of the band the unrounded
    score is labelled with. *)
Lemma rounded_in_closed_band (y : Qc) (b : AqiStatus) :
  get_aqi_status y = label b -> in_closed_band (round y 2) b.
Proof.
  intros H. apply ApiServerSpec.get_aqi_status_in_band in H.
  unfold in_band, in_closed_band, above, within, at_least in *.
  destruct H as [Hlo Hhi].
  destruct b; cbn [band_below upper_threshold] in *; split; try exact I;
    first [ apply (@round_2_below y 50) | apply (@round_2_below y 100)
          | apply (@round_2_below y 150) | apply (@round_2_below y 200)
          | apply (@round_2_below y 300)
          | apply (@round_2_above y 50) | apply (@round_2_above y 100)
          | apply (@round_2_above y 150) | apply (@round_2_above y 200)
          | apply (@round_2_above y 300) ];
    solve [lia | change (inject_Z ?z) with (z # 1); lra].
Qed.

(** X2: The score an answer shows and the status it shows go together: the
    rounded [AQI_Predicted] lies in the closed range of the band named by
    [status], for the custom and for the live endpoint. *)
Theorem shown_score_within_shown_band :
  (forall p srv answer b,
      fst (predict_custom p srv) = ok answer ->
      custom_status answer = label b ->
      in_closed_band (custom_AQI_Predicted answer) b) /\
  (forall net srv answer b,
      fst (predict net srv) = ok answer ->
      live_status answer = label b ->
      in_closed_band (live_AQI_Predicted answer) b).
Proof.
  split.
  - intros p srv answer b Hrun Hstatus.
    unfold predict_custom, sbind, gets, sret in Hrun.
    destruct (model srv) as [mdl|]; [|discriminate Hrun].
    simpl in Hrun.
    destruct (predict_first mdl [custom_features p]) as [msg|y];
      [discriminate Hrun|].
    simpl in Hrun. injection Hrun as <-.
    now apply rounded_in_closed_band.
  - intros net srv answer b Hrun Hstatus.
    unfold predict, sbind, gets, sret in Hrun.
    destruct (model srv) as [mdl|]; [|discriminate Hrun].
    destruct (fetch_live_data net srv) as [data srv'].
    simpl in Hrun.
    destruct (predict_first mdl [live_features data]) as [msg|y];
      [discriminate Hrun|].
    simpl in Hrun. injection Hrun as <-.
    now apply rounded_in_closed_band.
Qed.

Lemma shown_score_within_shown_band_witness :
  exists answer,
    fst (predict_custom Samples.scenario_params
           (Samples.server_with Samples.pm_model)) = ok answer /\
    in_closed_band (custom_AQI_Predicted answer) Good.
Proof.
  eexists. split; [reflexivity|].
  apply (proj1 shown_score_within_shown_band Samples.scenario_params
           (Samples.server_with Samples.pm_model)); reflexivity.
Defined.

End ClassifierProperties.

(* ===================================================================== *)
(** ** Further properties of the pollutant source *)

Module SourceProperties.

Import ApiServer Contract.

(** Splits the chain of binds of [fetch_live_data_try] up to the reading
    it returns; the branches that raise are closed. *)
Ltac step_through_try :=
  unfold fetch_live_data_try;
  repeat match goal with
  | |- context [ebind ?c _] =>
      match c with
      | ebind _ _ => fail 1
      | _ => destruct c; cbn [ebind]; [easy|]
      end
  end.

Lemma fetch_try_nh3 net r :
  fetch_live_data_try net = ok r -> nh3 r = num 0.0.
Proof.
  step_through_try. intros H. injection H as <-. reflexivity.
Qed.

(** X3: Whatever the provider does, the row of the live path has eight columns
    and its NO and NH3 columns (the third and the fifth) are zero. *)
Theorem live_row_has_no_NO_and_no_NH3 net srv :
  let row := live_features (fst (fetch_live_data net srv)) in
  length row = 8%nat /\
  nth_error row 2 = Some (num 0.0) /\
  nth_error row 4 = Some (num 0.0).
Proof.
  cbv zeta. rewrite ApiServerSpec.fetch_live_data_run.
  split; [reflexivity|]. split; [reflexivity|].
  destruct (fetch_live_data_try net) as [e|latest] eqn:E; [reflexivity|].
  simpl. now rewrite (fetch_try_nh3 _ E).
Qed.

(** A series that raises makes the whole body of the [try] raise. *)
Lemma failing_series_raises c data hourly key e :
  subscript_str data "hourly" = ok hourly ->
  In key series_keys ->
  latest_of hourly key = raise e ->
  exists e', fetch_live_data_try (GetResponse c (Some data)) = raise e'.
Proof.
  intros Hd Hin Hraise. unfold fetch_live_data_try. simpl.
  destruct (raise_for_status _); simpl; eauto.
  rewrite Hd. simpl.
  unfold series_keys in Hin. simpl in Hin.
  repeat (destruct Hin as [<- | Hin]); try contradiction;
    rewrite Hraise;
    repeat match goal with
    | |- context [latest_of ?h ?k] => destruct (latest_of h k)
    end; simpl; eauto.
Qed.

(** X4: A decoded body in which one series is a number, [true] or a dict
    (something true that has no last item) is handled like a failed fetch:
    the fallback reading is returned, whatever the other series hold. *)
Theorem fetch_live_data_unindexable_series c data hourly key v srv :
  subscript_str data "hourly" = ok hourly ->
  In key series_keys ->
  subscript_str hourly key = ok v ->
  unindexable v ->
  fst (fetch_live_data (GetResponse c (Some data)) srv) = fallback_reading.
Proof.
  intros Hd Hin Hk Hv.
  assert (Hraise : exists e, latest_of hourly key = raise e).
  { unfold latest_of. rewrite Hk. cbn [ebind ok].
    destruct Hv as [q Hq | | entry entries].
    - rewrite Hq. cbn [ebind ok subscript_last]. eauto.
    - cbn. eauto.
    - cbn. eauto. }
  destruct Hraise as [e Hraise].
  destruct (@failing_series_raises c _ _ _ _ Hd Hin Hraise) as [e' He'].
  rewrite ApiServerSpec.fetch_live_data_run, He'. reflexivity.
Qed.

Lemma fetch_live_data_unindexable_series_witness :
  fst (fetch_live_data
         (GetResponse 200 (Some Samples.body_with_scalar_ozone))
         Samples.server_without_model)
    = fallback_reading.
Proof.
  apply (@fetch_live_data_unindexable_series 200
           Samples.body_with_scalar_ozone
           (PyDict
              [ ("pm10", PyList [num 20]); ("pm2_5", PyList [num 10]);
                ("nitrogen_dioxide", PyList [num 15]);
                ("sulphur_dioxide", PyList [num 5]);
                ("carbon_monoxide", PyList [num 0.5]);
                ("ozone", num 40) ])
           "ozone" (num 40)).
  - reflexivity.
  - simpl. tauto.
  - reflexivity.
  - apply unindexable_number. reflexivity.
Defined.

Lemma latest_of_falsy hourly key :
  (exists v, subscript_str hourly key = ok v /\ truthy v = false) ->
  latest_of hourly key = ok (num 0).
Proof.
  intros [v [Hk Hv]]. unfold latest_of. rewrite Hk. cbn [ebind ok].
  now rewrite Hv.
Qed.

(** X5: On a successful response in which every series is present but false
    in a boolean context ([null], [false], [0], an empty string, list or
    dict), the reading is all zeros; the fallback is not used. *)
Theorem fetch_live_data_falsy_series c data hourly srv :
  (200 <= c < 300)%Z ->
  subscript_str data "hourly" = ok hourly ->
  (forall key, In key series_keys ->
     exists v, subscript_str hourly key = ok v /\ truthy v = false) ->
  fetch_live_data (GetResponse c (Some data)) srv =
    (let zeros :=
       {| pm2_5 := num 0; pm10 := num 0; no2 := num 0; so2 := num 0;
          co := num 0; o3 := num 0; nh3 := num 0.0 |} in
     (zeros, logged srv (FetchedLiveData zeros))).
Proof.
  intros Hc Hd Hall.
  rewrite ApiServerSpec.fetch_live_data_run. unfold fetch_live_data_try.
  simpl. rewrite (ApiServerSpec.raise_for_status_success _ Hc). simpl.
  rewrite Hd. simpl.
  rewrite !latest_of_falsy by (apply Hall; simpl; tauto).
  reflexivity.
Qed.

Lemma fetch_live_data_falsy_series_witness :
  fst (fetch_live_data (GetResponse 200 (Some Samples.body_of_nulls))
         Samples.server_without_model)
    = {| pm2_5 := num 0; pm10 := num 0; no2 := num 0; so2 := num 0;
         co := num 0; o3 := num 0; nh3 := num 0.0 |}.
Proof.
  rewrite (@fetch_live_data_falsy_series 200 Samples.body_of_nulls
             (PyDict
                [ ("pm10", PyNone); ("pm2_5", PyNone);
                  ("nitrogen_dioxide", PyNone); ("sulphur_dioxide", PyNone);
                  ("carbon_monoxide", PyNone); ("ozone", PyNone) ])
             Samples.server_without_model).
  - reflexivity.
  - lia.
  - reflexivity.
  - intros key Hin. exists PyNone. simpl in Hin.
    repeat (destruct Hin as [<- | Hin]); try contradiction;
      split; reflexivity.
Defined.

End SourceProperties.

(* ===================================================================== *)
(** ** Further properties of the prediction service *)

Module ServiceProperties.

Import ApiServer Contract.

Section Handlers.

Implicit Types (net : GetResult) (srv : Server) (p : CustomParams).

Lemma predict_without_model net srv :
  model srv = None -> predict net srv = (model_not_loaded, srv).
Proof. intros H. unfold predict, sbind, gets. now rewrite H. Qed.

Lemma predict_custom_run p srv :
  predict_custom p srv =
    (match model srv with
     | None => model_not_loaded
     | Some mdl =>
         prediction_error
           (prediction <- predict_first mdl [custom_features p] ;;
            ok {| custom_AQI_Predicted := round prediction 2;
                  custom_status := get_aqi_status prediction;
                  input_parameters :=
                    [ ("PM2.5", q_pm25 p); ("PM10", q_pm10 p);
                      ("NO2", q_no2 p); ("SO2", q_so2 p);
                      ("CO", q_co p); ("O3", q_o3 p);
                      ("NH3", q_nh3 p) ] |})%except
     end, srv).
Proof.
  unfold predict_custom, sbind, gets, sret. now destruct (model srv).
Qed.

Lemma prediction_error_detail {A} (c : Except string A) e :
  prediction_error c = raise e ->
  exc_status_code e = 500%Z /\
  exists msg, detail e = "Prediction error: " ++ msg.
Proof.
  destruct c as [msg|a]; simpl; intros H; [|discriminate H].
  injection H as <-. simpl. eauto.
Qed.

Lemma predict_error_cases net srv e :
  fst (predict net srv) = raise e ->
  exc_status_code e = 500%Z /\
  ((model srv = None /\ detail e = "Model not loaded") \/
   (model srv <> None /\
    exists msg, detail e = "Prediction error: " ++ msg)).
Proof.
  intros Hrun. destruct (model srv) as [mdl|] eqn:Hm.
  - rewrite (@ApiServerSpec.predict_run net srv mdl Hm) in Hrun.
    cbv zeta in Hrun. apply prediction_error_detail in Hrun.
    destruct Hrun as [Hcode Hdetail].
    split; [exact Hcode|]. right. split; [discriminate | exact Hdetail].
  - rewrite (@predict_without_model net srv Hm) in Hrun.
    injection Hrun as <-. split; [reflexivity|]. left. now split.
Qed.

Lemma predict_custom_error_cases p srv e :
  fst (predict_custom p srv) = raise e ->
  exc_status_code e = 500%Z /\
  ((model srv = None /\ detail e = "Model not loaded") \/
   (model srv <> None /\
    exists msg, detail e = "Prediction error: " ++ msg)).
Proof.
  intros Hrun. rewrite predict_custom_run in Hrun. simpl in Hrun.
  destruct (model srv) as [mdl|] eqn:Hm.
  - apply prediction_error_detail in Hrun.
    destruct Hrun as [Hcode Hdetail].
    split; [exact Hcode|]. right. split; [discriminate | exact Hdetail].
  - injection Hrun as <-. split; [reflexivity|]. left. now split.
Qed.

(** The errors of [/predict], each with where it comes from. *)
Lemma predict_raises_iff net srv e :
  fst (predict net srv) = raise e <->
  (model srv = None /\
   e = {| exc_status_code := 500; detail := "Model not loaded" |}) \/
  (exists mdl msg,
      model srv = Some mdl /\
      predict_first mdl [live_features (fst (fetch_live_data net srv))]
        = raise msg /\
      e = {| exc_status_code := 500;
             detail := "Prediction error: " ++ msg |}).
Proof.
  destruct (model srv) as [mdl|] eqn:Hm.
  - rewrite (@ApiServerSpec.predict_run net srv mdl Hm). cbv zeta.
    destruct (predict_first mdl
                [live_features (fst (fetch_live_data net srv))])
      as [msg|y] eqn:Hp; rewrite ?Hp; simpl; split.
    + intros H. injection H as <-. right. exists mdl, msg. now repeat split.
    + intros [[Hn _] | [mdl' [msg' [Hmdl [Hr ->]]]]]; [discriminate Hn|].
      injection Hmdl as <-. rewrite Hp in Hr. injection Hr as ->.
      reflexivity.
    + intros H. discriminate H.
    + intros [[Hn _] | [mdl' [msg' [Hmdl [Hr _]]]]]; [discriminate Hn|].
      injection Hmdl as <-. rewrite Hp in Hr. discriminate Hr.
  - rewrite (@predict_without_model net srv Hm). simpl. split.
    + intros H. injection H as <-. left. now split.
    + intros [[_ ->] | [mdl [msg [Hmdl _]]]];
        [reflexivity | discriminate Hmdl].
Qed.

Lemma predict_custom_raises_iff p srv e :
  fst (predict_custom p srv) = raise e <->
  (model srv = None /\
   e = {| exc_status_code := 500; detail := "Model not loaded" |}) \/
  (exists mdl msg,
      model srv = Some mdl /\
      predict_first mdl [custom_features p] = raise msg /\
      e = {| exc_status_code := 500;
             detail := "Prediction error: " ++ msg |}).
Proof.
  rewrite predict_custom_run. cbn [fst].
  destruct (model srv) as [mdl|] eqn:Hm.
  - destruct (predict_first mdl [custom_features p]) as [msg|y] eqn:Hp;
      rewrite ?Hp; simpl; split.
    + intros H. injection H as <-. right. exists mdl, msg. now repeat split.
    + intros [[Hn _] | [mdl' [msg' [Hmdl [Hr ->]]]]]; [discriminate Hn|].
      injection Hmdl as <-. rewrite Hp in Hr. injection Hr as ->.
      reflexivity.
    + intros H. discriminate H.
    + intros [[Hn _] | [mdl' [msg' [Hmdl [Hr _]]]]]; [discriminate Hn|].
      injection Hmdl as <-. rewrite Hp in Hr. discriminate Hr.
  - split.
    + intros H. injection H as <-. left. now split.
    + intros [[_ ->] | [mdl [msg [Hmdl _]]]];
        [reflexivity | discriminate Hmdl].
Qed.

(** X6: The errors of the two prediction endpoints are exactly these: with
    no model, status 500 and detail "Model not loaded"; with a model whose
    [model.predict(X)[0]] raises, status 500 and detail "Prediction error: "
    followed by the message of that very exception.  Nothing else is
    raised, and each of the two is raised whenever its cause is there. *)
Theorem prediction_errors_are_500 :
  (forall net srv e,
      fst (predict net srv) = raise e <->
      (model srv = None /\
       e = {| exc_status_code := 500; detail := "Model not loaded" |}) \/
      (exists mdl msg,
          model srv = Some mdl /\
          predict_first mdl [live_features (fst (fetch_live_data net srv))]
            = raise msg /\
          e = {| exc_status_code := 500;
                 detail := "Prediction error: " ++ msg |})) /\
  (forall p srv e,
      fst (predict_custom p srv) = raise e <->
      (model srv = None /\
       e = {| exc_status_code := 500; detail := "Model not loaded" |}) \/
      (exists mdl msg,
          model srv = Some mdl /\
          predict_first mdl [custom_features p] = raise msg /\
          e = {| exc_status_code := 500;
                 detail := "Prediction error: " ++ msg |})).
Proof.
  split; [exact predict_raises_iff | exact predict_custom_raises_iff].
Qed.

Lemma prediction_errors_are_500_witness :
  fst (predict (GetRaised Timeout)
         (Samples.server_with Samples.empty_ensemble))
    = raise {| exc_status_code := 500;
               detail := "Prediction error: This instance is not fitted yet" |}.
Proof.
  apply (proj1 prediction_errors_are_500).
  right. exists Samples.empty_ensemble, "This instance is not fitted yet".
  repeat split; reflexivity.
Defined.

(** X7: An exception of the model, and a model that answers with an empty
    array, both end as a 500 whose detail carries the message. *)
Theorem predict_custom_wraps_model_errors p srv mdl :
  model srv = Some mdl ->
  (forall msg,
      predict_fn mdl [custom_features p] = raise msg ->
      fst (predict_custom p srv) =
        raise {| exc_status_code := 500;
                 detail := "Prediction error: " ++ msg |}) /\
  (predict_fn mdl [custom_features p] = ok [] ->
   fst (predict_custom p srv) =
     raise {| exc_status_code := 500;
              detail := "Prediction error: index 0 is out of bounds for axis 0 with size 0" |}).
Proof.
  intros Hm. rewrite predict_custom_run, Hm. unfold predict_first.
  split.
  - intros msg Hraise. now rewrite Hraise.
  - intros Hempty. now rewrite Hempty.
Qed.

Lemma predict_custom_wraps_model_errors_witness :
  fst (predict_custom Samples.scenario_params
         (Samples.server_with Samples.empty_ensemble))
    = raise {| exc_status_code := 500;
               detail := "Prediction error: This instance is not fitted yet" |}.
Proof.
  apply (proj1 (@predict_custom_wraps_model_errors Samples.scenario_params
                  (Samples.server_with Samples.empty_ensemble)
                  Samples.empty_ensemble eq_refl)).
  reflexivity.
Defined.

(** X8: When the fetch fails and the model is there, [/predict] still answers
    with a score: the one of the fallback reading, which it reports as
    its pollutants under the timestamp "Live data". *)
Theorem predict_answers_from_fallback net srv mdl y rest :
  fetch_failure net ->
  model srv = Some mdl ->
  predict_fn mdl
    [[num 25.0; num 45.0; num 0.0; num 12.0; num 0.0; num 0.5; num 5.0;
      num 45.0]] = ok (y :: rest) ->
  fst (predict net srv) =
    ok {| live_AQI_Predicted := round y 2;
          live_status := get_aqi_status y;
          pollutants :=
            {| pm2_5 := num 25.0; pm10 := num 45.0; no2 := num 12.0;
               so2 := num 5.0; co := num 0.5; o3 := num 45.0;
               nh3 := num 0.0 |};
          location := "Delhi, India";
          timestamp := "Live data" |}.
Proof.
  intros Hfail Hm Hy.
  destruct (ApiServerSpec.fetch_failure_raises Hfail) as [e He].
  rewrite (@ApiServerSpec.predict_run net srv mdl Hm).
  rewrite ApiServerSpec.fetch_live_data_run, He.
  unfold raise. cbv beta iota zeta. cbn [fst].
  unfold live_features, fallback_reading.
  cbn [pm2_5 pm10 no2 so2 co o3 nh3].
  unfold predict_first. rewrite Hy. reflexivity.
Qed.

Lemma predict_answers_from_fallback_witness :
  exists answer,
    fst (predict (GetRaised Timeout) (Samples.server_with Samples.pm_model))
      = ok answer /\
    pollutants answer = fallback_reading /\
    live_status answer = "Unhealthy for Sensitive Groups 😷".
Proof.
  eexists. split.
  - apply (@predict_answers_from_fallback (GetRaised Timeout)
             (Samples.server_with Samples.pm_model) Samples.pm_model
             (Q2Qc (2 * Q2Qc 45.0 + Q2Qc 25.0 + 0.004)) []);
      [apply transport_failure | reflexivity | reflexivity].
  - split; reflexivity.
Defined.

(** X9: [/health] leaves the server as it is.  When it says "healthy" the
    model is loaded, and its [model_loaded] field is false exactly when
    the prediction endpoints answer "Model not loaded". *)
Theorem health_check_foretells_predictions net p srv :
  snd (health_check srv) = srv /\
  (health_status (fst (health_check srv)) = "healthy" ->
   model_loaded (fst (health_check srv)) = true) /\
  (model_loaded (fst (health_check srv)) = false <->
   fst (predict net srv) =
     raise {| exc_status_code := 500; detail := "Model not loaded" |}) /\
  (model_loaded (fst (health_check srv)) = false <->
   fst (predict_custom p srv) =
     raise {| exc_status_code := 500; detail := "Model not loaded" |}).
Proof.
  rewrite ApiServerSpec.health_check_run. cbn [fst snd health_status model_loaded].
  split; [reflexivity|]. split.
  - destruct (model srv) as [mdl|]; simpl; [reflexivity|discriminate].
  - split; (split; [intros Hnot | intros Herr]).
    + destruct (model srv) eqn:Hm; [discriminate Hnot|].
      now rewrite (@predict_without_model net srv Hm).
    + destruct (model srv) eqn:Hm; [|reflexivity].
      destruct (@predict_error_cases net srv _ Herr)
        as [_ [[Hnone _] | [_ [msg Hmsg]]]]; [congruence|].
      discriminate Hmsg.
    + destruct (model srv) eqn:Hm; [discriminate Hnot|].
      rewrite predict_custom_run, Hm. reflexivity.
    + destruct (model srv) eqn:Hm; [|reflexivity].
      destruct (@predict_custom_error_cases p srv _ Herr)
        as [_ [[Hnone _] | [_ [msg Hmsg]]]]; [congruence|].
      discriminate Hmsg.
Qed.

End Handlers.

End ServiceProperties.

(* ===================================================================== *)
(** ** Properties of a run of requests *)

Module RunProperties.

Import ApiServer Contract.
#[local] Open Scope list_scope.

Lemma serve_cons req rest srv :
  serve (req :: rest) srv =
    (fst (handle req srv) :: fst (serve rest (snd (handle req srv))),
     snd (serve rest (snd (handle req srv)))).
Proof.
  simpl. unfold sbind, sret.
  destruct (handle req srv) as [reply srv1]. simpl.
  now destruct (serve rest srv1).
Qed.

(** What one request does to the server. *)
Lemma handle_effect req srv :
  model (snd (handle req srv)) = model srv /\
  exists lines,
    stdout (snd (handle req srv)) = stdout srv ++ lines /\
    length lines =
      match req with
      | GetPredict _ => if is_not_None (model srv) then 1%nat else 0%nat
      | _ => 0%nat
      end.
Proof.
  destruct req as [| |net|p].
  - split; [reflexivity|]. exists []. now rewrite app_nil_r.
  - split; [reflexivity|]. exists []. now rewrite app_nil_r.
  - unfold handle, predict, sbind, gets, sret.
    destruct (model srv) as [mdl|] eqn:Hm; simpl.
    + rewrite ApiServerSpec.fetch_live_data_run.
      destruct (fetch_live_data_try net); simpl;
        (split; [exact Hm|]); eexists; split; reflexivity.
    + split; [exact Hm|]. exists []. now rewrite app_nil_r.
  - unfold handle, sbind, sret.
    rewrite ServiceProperties.predict_custom_run. simpl.
    split; [reflexivity|]. exists []. now rewrite app_nil_r.
Qed.

(** X10: Over any run of requests every request gets its reply, the model
    reference is never replaced, and the standard output only grows: by
    one line for each [/predict] served with a model, by nothing else. *)
Theorem serve_keeps_model_and_logs_fetches reqs srv :
  length (fst (serve reqs srv)) = length reqs /\
  model (snd (serve reqs srv)) = model srv /\
  exists lines,
    stdout (snd (serve reqs srv)) = stdout srv ++ lines /\
    length lines =
      if is_not_None (model srv) then live_requests reqs else 0%nat.
Proof.
  revert srv. induction reqs as [|req rest IH]; intros srv.
  - simpl. repeat split. exists []. rewrite app_nil_r.
    split; [reflexivity | now destruct (is_not_None (model srv))].
  - rewrite serve_cons. cbn [fst snd length].
    destruct (handle_effect req srv) as [Hm [l1 [Hout1 Hlen1]]].
    destruct (IH (snd (handle req srv))) as [Hreplies [Hm' [l2 [Hout2 Hlen2]]]].
    split; [now rewrite Hreplies|].
    split; [now rewrite Hm', Hm|].
    exists (l1 ++ l2). split.
    + now rewrite Hout2, Hout1, app_assoc.
    + rewrite length_app, Hlen1, Hlen2, Hm.
      destruct req; simpl; destruct (is_not_None (model srv)); reflexivity.
Qed.

Lemma handle_without_model req srv :
  model srv = None ->
  reply_without_model (fst (handle req srv)) /\ snd (handle req srv) = srv.
Proof.
  intros Hm. destruct req as [| |net|p].
  - now split.
  - unfold handle, sbind, sret. rewrite ApiServerSpec.health_check_run.
    rewrite Hm. now split.
  - unfold handle, sbind, sret.
    rewrite (@ServiceProperties.predict_without_model net srv Hm).
    now split.
  - unfold handle, sbind, sret.
    rewrite ServiceProperties.predict_custom_run, Hm. now split.
Qed.

(** X11: A process whose model did not load never recovers: over any run of
    requests every prediction is refused with "Model not loaded", every
    health check says so, and the server state does not change. *)
Theorem serve_without_model reqs srv :
  model srv = None ->
  Forall reply_without_model (fst (serve reqs srv)) /\
  snd (serve reqs srv) = srv.
Proof.
  intros Hm. induction reqs as [|req rest IH].
  - split; [constructor | reflexivity].
  - rewrite serve_cons. cbn [fst snd].
    destruct (@handle_without_model req srv Hm) as [Hreply ->].
    destruct IH as [Hreplies Hsrv].
    split; [now constructor | exact Hsrv].
Qed.

Lemma serve_without_model_witness :
  Forall reply_without_model
    (fst (serve Samples.mixed_requests
            (startup (raise "No such file or directory: model.pkl")))) /\
  snd (serve Samples.mixed_requests
         (startup (raise "No such file or directory: model.pkl")))
    = startup (raise "No such file or directory: model.pkl").
Proof.
  apply (@serve_without_model Samples.mixed_requests
           (startup (raise "No such file or directory: model.pkl"))).
  reflexivity.
Defined.

End RunProperties.

(* ===================================================================== *)
(** ** Further properties of the dashboard *)

Module DashboardProperties.

Import ApiServer Contract Dashboard.

(** *** Substrings *)

Section Substrings.

Implicit Types (needle hay pre post : string).

Lemma append_assoc pre hay post :
  ((pre ++ hay) ++ post = pre ++ (hay ++ post))%string.
Proof. induction pre as [|c pre IH]; simpl; [reflexivity | now rewrite IH]. Qed.

Lemma prefix_append needle post :
  String.prefix needle (needle ++ post) = true.
Proof.
  induction needle as [|c needle IH]; simpl; [now destruct post|].
  destruct (ascii_dec c c) as [_|Hne]; [exact IH | now elim Hne].
Qed.

Lemma prefix_split needle hay :
  String.prefix needle hay = true -> exists post, hay = needle ++ post.
Proof.
  revert hay. induction needle as [|c needle IH]; intros hay H.
  - now exists hay.
  - destruct hay as [|d hay]; simpl in H; [discriminate H|].
    destruct (ascii_dec c d) as [<-|]; [|discriminate H].
    destruct (IH hay H) as [post ->]. now exists post.
Qed.

(** [str_contains] finds exactly the strings that occur somewhere. *)
Lemma str_contains_spec needle hay :
  str_contains needle hay = true <->
  exists pre post, hay = pre ++ needle ++ post.
Proof.
  split.
  - induction hay as [|c hay IH]; cbn [str_contains]; intros H.
    + rewrite orb_false_r in H.
      destruct (prefix_split _ _ H) as [post ->]. now exists "", post.
    + apply orb_true_iff in H. destruct H as [H|H].
      * destruct (prefix_split _ _ H) as [post ->]. now exists "", post.
      * destruct (IH H) as [pre [post ->]]. now exists (String c pre), post.
  - intros [pre [post ->]].
    induction pre as [|c pre IH].
    + change ("" ++ needle ++ post)%string with (needle ++ post)%string.
      destruct (needle ++ post)%string eqn:E; cbn [str_contains];
        rewrite <- E, prefix_append; reflexivity.
    + change (String c pre ++ needle ++ post)%string
        with (String c (pre ++ needle ++ post)).
      cbn [str_contains]. rewrite IH. apply orb_true_r.
Qed.

Lemma str_contains_trans needle middle hay :
  str_contains needle middle = true ->
  str_contains middle hay = true ->
  str_contains needle hay = true.
Proof.
  rewrite !str_contains_spec.
  intros [p1 [q1 ->]] [p2 [q2 ->]].
  exists (p2 ++ p1), (q1 ++ q2).
  now rewrite !append_assoc.
Qed.

End Substrings.

(** *** The status colour *)

(** X12: [get_status_color] never answers "purple": a status that contains
    "Very Unhealthy" contains "Unhealthy" and is coloured red before the
    purple branch is reached.  The colour is one of the other four. *)
Theorem get_status_color_is_never_purple (status : string) :
  get_status_color status <> "purple" /\
  In (get_status_color status) ["green"; "orange"; "red"; "maroon"].
Proof.
  unfold get_status_color.
  destruct (str_contains "Good" status); [split; [discriminate|simpl; tauto]|].
  destruct (str_contains "Moderate" status);
    [split; [discriminate|simpl; tauto]|].
  destruct (str_contains "Unhealthy" status) eqn:Hu;
    [split; [discriminate|simpl; tauto]|].
  destruct (str_contains "Very Unhealthy" status) eqn:Hvu;
    [|split; [discriminate|simpl; tauto]].
  assert (Hsub : str_contains "Unhealthy" "Very Unhealthy" = true)
    by reflexivity.
  rewrite (str_contains_trans _ _ _ Hsub Hvu) in Hu. discriminate Hu.
Qed.

(** X13: The colour the dashboard gives to the status of a score: green up to
    50, orange up to 100, red up to 300 (the three "Unhealthy" bands
    alike) and maroon above. *)
Theorem colour_of_a_score (aqi : Qc) :
  ((aqi <= 50)%Q ->
   get_status_color (get_aqi_status aqi) = "green") /\
  ((50 < aqi)%Q -> (aqi <= 100)%Q ->
   get_status_color (get_aqi_status aqi) = "orange") /\
  ((100 < aqi)%Q -> (aqi <= 300)%Q ->
   get_status_color (get_aqi_status aqi) = "red") /\
  ((300 < aqi)%Q ->
   get_status_color (get_aqi_status aqi) = "maroon").
Proof.
  repeat split; intros; ApiServerSpec.by_thresholds;
    first [reflexivity | exfalso; lra].
Qed.

Lemma colour_of_a_score_witness :
  get_status_color (get_aqi_status (Q2Qc 250)) = "red".
Proof.
  apply (proj1 (proj2 (proj2 (colour_of_a_score (Q2Qc 250)))));
    solve [reflexivity | vm_compute; discriminate].
Defined.

(** *** Fetching the prediction *)

(** X14: [fetch_data] always comes back with data to show.  With the checkbox
    set it is the sample data and nothing else happens; otherwise it is
    the decoded body of a response with status exactly 200, and in every
    other case the sample data together with one error message. *)
Theorem fetch_data_outcomes (use_sample_data : bool) (net : GetResult)
    (shown : list UiMessage) :
  (use_sample_data = true ->
   fetch_data use_sample_data net shown = (sample_data, shown)) /\
  (use_sample_data = false ->
   forall body, net = GetResponse 200 (Some body) ->
   fetch_data use_sample_data net shown = (body, shown)) /\
  (use_sample_data = false ->
   (forall body, net <> GetResponse 200 (Some body)) ->
   exists message,
     fetch_data use_sample_data net shown
       = (sample_data, (shown ++ [message])%list)).
Proof.
  split; [intros ->; reflexivity|].
  split; [intros -> body ->; reflexivity|].
  intros -> Hnot. unfold fetch_data.
  destruct net as [e|c body]; simpl; [eexists; reflexivity|].
  destruct (Z.eqb_spec c 200) as [->|Hc]; [|eexists; reflexivity].
  destruct body as [body|]; simpl; [|eexists; reflexivity].
  now elim (Hnot body).
Qed.

Lemma fetch_data_outcomes_witness :
  exists message,
    fetch_data false (GetResponse 204 None) []
      = (sample_data, [message]).
Proof.
  apply (proj2 (proj2 (fetch_data_outcomes false (GetResponse 204 None) [])));
    [reflexivity | discriminate].
Defined.

(** X15: Whenever [/predict] fails (no model, or an error of the model) the
    dashboard that asked it shows the sample data, AQI 45.5 "Good",
    after one "API Error: 500". *)
Theorem dashboard_shows_sample_when_predict_fails net srv e shown :
  fst (predict net srv) = raise e ->
  fetch_data false (http_response (fst (predict net srv))) shown
    = (sample_data, (shown ++ [ApiError 500])%list) /\
  subscript_str sample_data "AQI_Predicted" = ok (num 45.5) /\
  subscript_str sample_data "status" = ok (PyStr "Good 😊").
Proof.
  intros Hrun.
  destruct (@ServiceProperties.predict_error_cases net srv e Hrun)
    as [Hcode _].
  rewrite Hrun. unfold http_response, raise, fetch_data. simpl.
  rewrite Hcode. now repeat split.
Qed.

Lemma dashboard_shows_sample_when_predict_fails_witness :
  fst (fetch_data false
         (http_response
            (fst (predict (GetResponse 200 (Some Samples.scenario_body))
                    Samples.server_without_model))) [])
    = sample_data.
Proof.
  rewrite (proj1 (@dashboard_shows_sample_when_predict_fails
                    (GetResponse 200 (Some Samples.scenario_body))
                    Samples.server_without_model
                    {| exc_status_code := 500;
                       detail := "Model not loaded" |} [] eq_refl)).
  reflexivity.
Defined.

(** *** The history buffer, from any state *)

Section History.

#[local] Open Scope list_scope.
Implicit Types (h readings : list HistoryEntry) (r : HistoryEntry).

(** X16: From a buffer within its capacity, the buffer after any refreshes is
    the last 20 of everything it was given: what it held, then the
    readings in arrival order. *)
Theorem refreshes_keep_last_20 h readings :
  (length h <= 20)%nat ->
  refreshes h readings
    = skipn (length (h ++ readings) - 20) (h ++ readings) /\
  length (refreshes h readings) = Nat.min 20 (length h + length readings).
Proof.
  intros Hh.
  assert (Hcontent : refreshes h readings
            = skipn (length (h ++ readings) - 20) (h ++ readings)).
  { induction readings as [|r readings IH] using rev_ind.
    - rewrite app_nil_r. simpl.
      now replace (length h - 20)%nat with 0%nat by lia.
    - rewrite DashboardSpec.refreshes_snoc, IH.
      unfold update_history, pop0. rewrite app_assoc.
      set (all := h ++ readings).
      rewrite !length_app, length_skipn. simpl.
      destruct (Nat.ltb_spec 20 (length all - (length all - 20) + 1))
        as [Hfull|Hroom].
      + rewrite skipn_app.
        replace (length all + 1 - 20 - length all)%nat with 0%nat by lia.
        replace (length all + 1 - 20)%nat with (S (length all - 20)) by lia.
        rewrite <- DashboardSpec.tl_skipn. simpl.
        destruct (skipn (length all - 20) all) eqn:E; [|reflexivity].
        apply (f_equal (@length _)) in E. rewrite length_skipn in E.
        simpl in E. lia.
      + replace (length all + 1 - 20)%nat with 0%nat by lia.
        replace (length all - 20)%nat with 0%nat by lia.
        reflexivity. }
  split; [exact Hcontent|].
  rewrite Hcontent, length_skipn, length_app. lia.
Qed.

Lemma refreshes_keep_last_20_witness :
  refreshes (map Samples.entry_at (seq 1 18)) (map Samples.entry_at (seq 19 7))
    = map Samples.entry_at (seq 6 20).
Proof.
  rewrite (proj1 (@refreshes_keep_last_20
                    (map Samples.entry_at (seq 1 18))
                    (map Samples.entry_at (seq 19 7))
                    ltac:(simpl; lia))).
  reflexivity.
Defined.

Lemma last_tl {A} (l : list A) (d : A) :
  (2 <= length l)%nat -> last (tl l) d = last l d.
Proof.
  destruct l as [|x [|y l]]; simpl; intros H; try lia. reflexivity.
Qed.

(** X17: After its update the history is never empty (so the chart of line
    158 is always drawn) and its last entry is the reading just taken,
    whatever the buffer held before. *)
Theorem update_history_ends_with_reading h r (d : HistoryEntry) :
  update_history h r <> [] /\ last (update_history h r) d = r.
Proof.
  unfold update_history, pop0.
  destruct (Nat.ltb_spec 20 (length (h ++ [r]))) as [Hover|Hfits].
  - split.
    + intros Hnil. apply (f_equal (@length _)) in Hnil.
      destruct (h ++ [r]) as [|x [|y l]]; simpl in *; lia.
    + rewrite last_tl by lia. apply last_last.
  - split; [now destruct h | apply last_last].
Qed.

End History.

End DashboardProperties.
